(** * junctionfs-auth: the credential store and the authenticated dispatcher

    A shallow embedding of the two variants of the gateway:
    - [Metadata]: [src/index.js], the Credential Collection is the
      [services] field of the user's identity-provider profile;
    - [Cache]: [src/unnamed/part_000], every Credential Record is an entry
      of a key-value cache under the key [userId_name_type].

    Handlers are functions in a state-and-exception monad over the store
    they talk to.  Calls to the external collaborators (identity service,
    cache, wrapped OAuth completion, session middleware) are modelled by
    their effect on that store. *)

From Stdlib Require Import ZArith String Ascii List Lia DecimalString.
From stdpp Require Import base option list gmap strings fin_maps.

Set Warnings "-register-all".

Local Open Scope string_scope.
Local Open Scope Z_scope.
Local Open Scope list_scope.

(** ** JavaScript values *)

(** JSON-shaped values: credential payloads and response bodies. *)
Inductive value : Type :=
| VUndefined
| VNull
| VBool (b : bool)
| VNum (n : Z)
| VStr (s : string)
| VArr (items : list value)
| VObj (fields : list (string * value)).

(** A value that the code only ever uses as a string but which may be
    [undefined]: a request header, a field of a JSON body, the user id
    read through [req.session?.getUserId()]. *)
Abbreviation jsstring := (option string).

(** [ToString]: what [+] concatenates for a string or [undefined]. *)
Definition ToString (s : jsstring) : string := default "undefined" s.

Definition of_jsstring (s : jsstring) : value :=
  match s with Some x => VStr x | None => VUndefined end.

(** [a == b] for two values that are strings or [undefined]. *)
Definition loose_eq (a b : jsstring) : bool :=
  match a, b with
  | Some x, Some y => String.eqb x y
  | None, None => true
  | _, _ => false
  end.

(** [a || b] on strings: the empty string and [undefined] are falsy. *)
Definition or_else (a : jsstring) (b : string) : string :=
  match a with
  | Some x => if String.eqb x "" then b else x
  | None => b
  end.

(** Own enumerable keys of an object; no keys for anything else. *)
Definition keys (v : value) : list string :=
  match v with VObj fields => map fst fields | _ => [] end.

(** ** Exceptions and the handler monad *)

Inductive exn : Type :=
| TypeError (what : string)
| ReferenceError (ident : string)
| Error (message : string)
| Thrown (s : string)            (* [throw "..."] of a bare string *)
| CoreError (message : string).  (* raised by the identity-service client *)

Inductive outcome (A : Type) : Type :=
| Ok (a : A)
| Throw (e : exn).
Arguments Ok {A} a.
Arguments Throw {A} e.

Section Monad.

Context {St : Type}.

Definition M (A : Type) : Type := St -> outcome A * St.

Definition ret {A} (a : A) : M A := fun w => (Ok a, w).

Definition throw {A} (e : exn) : M A := fun w => (Throw e, w).

Definition bind {A B} (m : M A) (k : A -> M B) : M B :=
  fun w =>
    match m w with
    | (Ok a, w') => k a w'
    | (Throw e, w') => (Throw e, w')
    end.

(** [try { m } catch (err) { h err }]: what [m] did before it threw stays
    done. *)
Definition try_catch {A} (m : M A) (h : exn -> M A) : M A :=
  fun w =>
    match m w with
    | (Ok a, w') => (Ok a, w')
    | (Throw e, w') => h e w'
    end.

End Monad.
Arguments M St A : clear implicits.

Declare Scope js_scope.
Delimit Scope js_scope with js.
Notation "'let!' x ':=' c 'in' k" := (bind c (fun x => k))
  (at level 10, x name, c at level 100, k at level 200) : js_scope.
Notation "c ';;' k" := (bind c (fun _ => k))
  (at level 100, k at level 200, right associativity) : js_scope.
Local Open Scope js_scope.

(** ** Responses *)

(** What a handler does with [res] (or with the proxy). *)
Inductive response : Type :=
| Json (body : value)                 (* [res.json(body)] *)
| Status (code : Z)                   (* [res.status(code).end()], empty body *)
| ProxyWeb (target : string)          (* [apiProxy.web(req, res, {target})] *)
           (authenticated_user : string)
           (provider_credentials : value) (* the value that is JSON.stringify-ed *)
| Unauthorized                        (* the session middleware's reply *)
| NoReply.                            (* the handler returns without using [res] *)

(** ** Session gate *)

(** What the middleware does with a request: answer it itself, or call
    the next handler with the user id it resolved. *)
Inductive gate : Type :=
| Reject
| Next (userId : jsstring).

(** Modelled from the spec: [verifySession] is the middleware of the
    session library, whose code is not among the sources.  Section 4.3: if
    the session is required and absent or invalid the middleware
    short-circuits with an unauthorized response and the route handler
    never runs; if it is valid the handler runs with the user id; if it is
    not required the handler runs, with [req.session] possibly
    [undefined]. *)
Definition verifySession (sessionRequired : bool) (session : jsstring) : gate :=
  match session with
  | Some u => Next (Some u)
  | None => if sessionRequired then Reject else Next None
  end.

(** [process.env.DISABLE_AUTH !== "true"] *)
Definition sessionRequired (DISABLE_AUTH : jsstring) : bool :=
  match DISABLE_AUTH with
  | Some v => negb (String.eqb v "true")
  | None => true
  end.

(** [app.METHOD(path, verifySession(...), handler)] *)
Definition guarded {St} (DISABLE_AUTH session : jsstring)
    (handler : jsstring -> M St response) : M St response :=
  match verifySession (sessionRequired DISABLE_AUTH) session with
  | Reject => ret Unauthorized
  | Next userId => handler userId
  end.

(** The method of a request that reaches the routes.  ([OPTIONS] requests
    are answered by the CORS middleware in front of them.) *)
Inductive method : Type := GET | HEAD | PUT | POST | DELETE | PATCH.

Record request : Type := {
  req_method : method;
  req_session : jsstring;        (* user id of the valid session, if any *)
  provider_id : jsstring;        (* [req.headers["provider-id"]] *)
  provider_type : jsstring;      (* [req.headers["provider-type"]] *)
  body_name : jsstring;          (* [req.body.name] *)
  body_type : jsstring;          (* [req.body.type] *)
  body_data : value              (* [req.body.data] *)
}.

Record environment : Type := {
  DISABLE_AUTH : jsstring;
  JONCTIONFS_URI : jsstring;
  GOOGLE_CLIENT_ID : jsstring
}.

(** ** Sign-in completion *)

Record signin_input : Type := {
  clientId : jsstring;
  payload : value          (* the rest of the sign-in form *)
}.

Record signin_response : Type := {
  status : string;
  user : jsstring;         (* [response.user.id]; [None]: no [user] *)
  authCodeResponse : value
}.

(** How the wrapped completion ends. *)
Inductive completion : Type :=
| Resolves (r : signin_response)
| Rejects (e : exn).

(** ** String methods *)

(** Positions count the characters of the string, which for keys made of
    ASCII characters are the positions JavaScript counts. *)

(** [x.startsWith(p)] *)
Fixpoint startsWith (x p : string) {struct p} : bool :=
  match p, x with
  | EmptyString, _ => true
  | String c p', String d x' => Ascii.eqb d c && startsWith x' p'
  | String _ _, EmptyString => false
  end.

(** [x.indexOf(c)] for a one-character [c]; [-1] when [c] does not occur. *)
Fixpoint indexOf (x : string) (c : ascii) : Z :=
  match x with
  | EmptyString => -1
  | String d x' =>
      if Ascii.eqb d c then 0
      else let i := indexOf x' c in if i <? 0 then -1 else i + 1
  end.

(** [x.lastIndexOf(c)] for a one-character [c]. *)
Fixpoint lastIndexOf (x : string) (c : ascii) : Z :=
  match x with
  | EmptyString => -1
  | String d x' =>
      let i := lastIndexOf x' c in
      if 0 <=? i then i + 1
      else if Ascii.eqb d c then 0 else -1
  end.

(** [x.substring(start, end)]: both indices are clamped to [0, length] and
    swapped when [start > end]. *)
Definition substring (x : string) (start end' : Z) : string :=
  let len := Z.of_nat (String.length x) in
  let a := Z.min (Z.max start 0) len in
  let b := Z.min (Z.max end' 0) len in
  String.substring (Z.to_nat (Z.min a b)) (Z.to_nat (Z.max a b - Z.min a b)) x.

(** [x.substring(start)] *)
Definition substring_from (x : string) (start : Z) : string :=
  substring x start (Z.of_nat (String.length x)).

(** [v[k]]: reading a property throws on [null] and [undefined]; a
    primitive or an array has no property of the names used here. *)
Definition get_property {St} (v : value) (k : string) : M St value :=
  match v with
  | VUndefined | VNull =>
      throw (TypeError ("Cannot read properties of null (reading '" ++ k ++ "')"))
  | VObj fields =>
      ret (match find (fun kv => String.eqb (fst kv) k) fields with
           | Some kv => snd kv
           | None => VUndefined
           end)
  | _ => ret VUndefined
  end.

(** ** Outbound headers *)

(** A string stands for the bytes of its UTF-8 text. *)

(** [n] written in decimal, as [JSON.stringify] writes an integer (of
    magnitude below 10^21). *)
Definition decimal (n : Z) : string := NilZero.string_of_int (Z.to_int n).

Definition hex_digit (n : nat) : ascii :=
  ascii_of_nat (if (n <? 10)%nat then 48 + n else 87 + n).

(** One character inside a JSON string: the quote, the backslash and the
    control characters are escaped, every other character is kept. *)
Definition escape (c : ascii) : string :=
  let n := nat_of_ascii c in
  if (n =? 34)%nat then String "092" (String "034" "")
  else if (n =? 92)%nat then String "092" (String "092" "")
  else if (n =? 8)%nat then String "092" "b"
  else if (n =? 9)%nat then String "092" "t"
  else if (n =? 10)%nat then String "092" "n"
  else if (n =? 12)%nat then String "092" "f"
  else if (n =? 13)%nat then String "092" "r"
  else if (n <? 32)%nat then
    String "092" (String "u" (String "0" (String "0"
      (String (hex_digit (n / 16)) (String (hex_digit (n mod 16)) "")))))
  else String c "".

Fixpoint escaped (s : string) : string :=
  match s with
  | EmptyString => ""
  | String c s' => escape c +:+ escaped s'
  end.

Definition quote (s : string) : string :=
  String "034" (escaped s +:+ String "034" "").

(** [JSON.stringify(v)]; [None] is [undefined].  An [undefined] element of
    an array is written [null] and an [undefined] field of an object is
    left out.  Fields are written in the order of the list. *)
Fixpoint JSON_stringify (v : value) : option string :=
  match v with
  | VUndefined => None
  | VNull => Some "null"
  | VBool b => Some (if b then "true" else "false")
  | VNum n => Some (decimal n)
  | VStr s => Some (quote s)
  | VArr items =>
      Some ("[" +:+ String.concat ","
                      (map (fun x => default "null" (JSON_stringify x)) items)
                +:+ "]")
  | VObj fields =>
      Some ("{" +:+ String.concat ","
                      (flat_map
                         (fun kv =>
                            match JSON_stringify (snd kv) with
                            | Some text => [quote (fst kv) +:+ ":" +:+ text]
                            | None => []
                            end) fields)
                +:+ "}")
  end.

(** The check the runtime makes on a header value before it sends a
    request: the value may hold the horizontal tab and the characters from
    space to tilde and from U+0080 to U+00FF, whose UTF-8 bytes are those
    from 128 to 195. *)
Definition valid_header_char (c : ascii) : bool :=
  let n := nat_of_ascii c in
  (n =? 9)%nat || ((32 <=? n)%nat && (n <=? 126)%nat)
  || ((128 <=? n)%nat && (n <=? 195)%nat).

Fixpoint valid_header_value (s : string) : bool :=
  match s with
  | EmptyString => true
  | String c s' => valid_header_char c && valid_header_value s'
  end.

(** The text that [JSON.stringify(v)] puts into a header, when there is one
    and the runtime accepts it. *)
Definition header_value (v : value) : option string :=
  match JSON_stringify v with
  | Some text => if valid_header_value text then Some text else None
  | None => None
  end.

(** [apiProxy.web(req, res, {target})] after the handler has set the two
    headers: the outgoing request is built at once, and building it throws
    when there is no target, when a header is [undefined] and when a header
    holds a character that is not allowed. *)
Definition proxy_web {St} (target : jsstring) (authenticated_user : string)
    (provider_credentials : value) : M St response :=
  match target with
  | None => throw (Error "Must provide a proper URL as target")
  | Some target =>
      match JSON_stringify provider_credentials with
      | None => throw (TypeError "Invalid value undefined for header provider-credentials")
      | Some text =>
          if valid_header_value authenticated_user && valid_header_value text
          then ret (ProxyWeb target authenticated_user provider_credentials)
          else throw (TypeError "Invalid character in header content")
      end
  end.

(** * The metadata-backed variant ([src/index.js]) *)

Module Metadata.

(** ** Data model *)

Record service : Type := {
  name : jsstring;
  type : jsstring;
  data : value
}.

(** What the [services] field of a profile holds when it is there: the
    array of records, or the number it "sometimes becomes".  A field that
    holds another value (a string, a boolean) is outside this type; the
    read of the field in general is [Profile.getServices] below, and
    [ProfileFacts.read_refines] shows that it is the read of this module
    on the stores of this type. *)
Inductive stored : Type :=
| Corrupt (n : Z)
| Services (l : list service).

(** The identity service as the gateway sees it.  [metadata] maps a user id
    to the [services] field of that user's profile (no entry: the field is
    [undefined]); [writes] logs the [updateUserMetadata] calls, latest
    first; [tape] schedules the one update that [getServices] issues
    without awaiting it: [true] (and the empty tape) delivers it before the
    read that follows, [false] lets that read overtake it. *)
Record world : Type := {
  metadata : gmap string stored;
  writes : list (string * stored);
  tape : list bool
}.

(** [{name, type, data}] *)
Definition record (n t : jsstring) (d : value) : service :=
  {| name := n; type := t; data := d |}.

Definition set_service_data (x : service) (d : value) : service :=
  {| name := name x; type := type x; data := d |}.

(** The records of a collection, whatever its shape. *)
Definition records (s : option stored) : list service :=
  match s with Some (Services l) => l | _ => [] end.

(** ** The identity-service client *)

(** [(await UserMetadata.getUserMetadata(userId)).metadata.services].  The
    service answers a request that carries no user id with an error. *)
Definition getUserMetadata (userId : jsstring) : M world (option stored) :=
  fun w =>
    match userId with
    | Some u => (Ok (metadata w !! u), w)
    | None => (Throw (CoreError "userId is missing"), w)
    end.

(** [UserMetadata.updateUserMetadata(userId, { services })]: a shallow
    merge, so the [services] field is replaced as a whole. *)
Definition updateUserMetadata (userId : jsstring) (services : stored)
  : M world unit :=
  fun w =>
    match userId with
    | Some u =>
        (Ok tt, {| metadata := <[u := services]> (metadata w);
                   writes := (u, services) :: writes w;
                   tape := tape w |})
    | None => (Throw (CoreError "userId is missing"), w)
    end.

(** Whether the update in flight reaches the service before the next
    request does. *)
Definition delivered_first : M world bool :=
  fun w =>
    match tape w with
    | [] => (Ok true, w)
    | b :: t => (Ok b, {| metadata := metadata w; writes := writes w; tape := t |})
    end.

(** The world after one more [updateUserMetadata(u, { services })]. *)
Definition written (w : world) (u : string) (services : stored) : world :=
  {| metadata := <[u := services]> (metadata w);
     writes := (u, services) :: writes w;
     tape := tape w |}.

(** The world once the reset of [u]'s collection has been delivered and
    the schedule has moved on by one step. *)
Definition repaired (w : world) (u : string) : world :=
  {| metadata := <[u := Services []]> (metadata w);
     writes := (u, Services []) :: writes w;
     tape := tl (tape w) |}.

(** ** The credential store *)

Definition getServices (userId : jsstring) : M world (option stored) :=
  let! services := getUserMetadata userId in
  match services with
  | Some (Corrupt _) =>
      (* typeof metadata.services == "number": the update is not awaited *)
      let! first := delivered_first in
      if (first : bool) then
        updateUserMetadata userId (Services []) ;;
        getUserMetadata userId
      else
        let! stale := getUserMetadata userId in
        updateUserMetadata userId (Services []) ;;
        ret stale
  | _ => ret services
  end.

(** [x => x.name == n] *)
Definition named (n : jsstring) (x : service) : bool := loose_eq (name x) n.

(** The result of [getServiceData]: [null], [undefined] (what [find]
    returns on a miss) or the record. *)
Inductive lookup_result : Type :=
| IsNull
| IsUndefined
| Found (x : service).

Definition truthy (r : lookup_result) : bool :=
  match r with Found _ => true | _ => false end.

Definition getServiceData (userId name' : jsstring) : M world lookup_result :=
  let! services := getServices userId in
  match services with
  | None => ret IsNull
  | Some (Corrupt n) =>
      if n =? 0 then ret IsNull
      else throw (TypeError "services.find is not a function")
  | Some (Services l) =>
      ret (match find (named name') l with
           | Some x => Found x
           | None => IsUndefined
           end)
  end.

Definition addService (userId name' type' : jsstring) (data' : value)
  : M world unit :=
  let! services := getServices userId in
  let! existingService := getServiceData userId name' in
  if truthy existingService then
    throw (Thrown "Trying to add a service which already exists")
  else
    (* if (!services?.length) services = [] *)
    let services :=
      match services with
      | Some (Services (x :: l)) => x :: l
      | _ => []
      end in
    (* services.push({name, type, data}) *)
    let services := services ++ [{| name := name'; type := type'; data := data' |}] in
    updateUserMetadata userId (Services services).

(** [services.findIndex(x => x.name == name)] *)
Fixpoint findIndex (name' : jsstring) (l : list service) : Z :=
  match l with
  | [] => -1
  | x :: l' =>
      if loose_eq (name x) name' then 0
      else let i := findIndex name' l' in if i <? 0 then -1 else i + 1
  end.

Definition editService (userId name' : jsstring) (data' : value)
  : M world unit :=
  let! services := getServices userId in
  match services with
  | None => throw (TypeError "Cannot read properties of undefined (reading 'findIndex')")
  | Some (Corrupt _) => throw (TypeError "services.findIndex is not a function")
  | Some (Services l) =>
      let serviceIndex := findIndex name' l in
      (* services[serviceIndex].data = data *)
      match (if serviceIndex <? 0 then None else l !! Z.to_nat serviceIndex) with
      | None => throw (TypeError "Cannot set properties of undefined (setting 'data')")
      | Some x =>
          updateUserMetadata userId
            (Services (<[Z.to_nat serviceIndex := set_service_data x data']> l))
      end
  end.

(** ** The sign-in interceptor *)

Definition thirdPartySignInUpPOST (env : environment)
    (original : option (signin_input -> completion)) (input : signin_input)
  : M world signin_response :=
  match original with
  | None => throw (Error "Should never come here")
  | Some original =>
      let input := {| clientId := GOOGLE_CLIENT_ID env; payload := payload input |} in
      match original input with
      | Rejects _ =>
          (* logged; [response] stays undefined *)
          throw (TypeError "Cannot read properties of undefined (reading 'status')")
      | Resolves response =>
          (if String.eqb (status response) "OK" then
             match user response with
             | None => throw (TypeError "Cannot read properties of undefined (reading 'id')")
             | Some id =>
                 let! googleServiceData := getServiceData (Some id) (Some "Google Drive") in
                 if truthy googleServiceData then
                   editService (Some id) (Some "Google Drive") (authCodeResponse response)
                 else
                   addService (Some id) (Some "Google Drive") (Some "GoogleDrive")
                     (authCodeResponse response)
             end
           else ret tt) ;;
          ret response
      end
  end.

(** ** Route handlers *)

(** [{name: x.name, type: x.type}] *)
Definition name_and_type (x : service) : value :=
  VObj [("name", of_jsstring (name x)); ("type", of_jsstring (type x))].

(** Handler of [app.get("/api/*")]. *)
Definition get_api (userId : jsstring) : M world response :=
  let! services := getServices userId in
  let! servicesNames :=
    match services with
    | None => ret VUndefined                       (* services?.map *)
    | Some (Corrupt _) => throw (TypeError "services?.map is not a function")
    | Some (Services l) => ret (VArr (map name_and_type l))
    end in
  ret (Json servicesNames).

(** What an identifier is bound to. *)
Inductive binding : Type :=
| BString (s : jsstring)
| BValue (v : value)
| BOther.                  (* a function, a module, an object of a library *)

(** The top-level declarations of [index.js], in order. *)
Definition module_scope : list (string * binding) :=
  map (fun x => (x, BOther))
    ["express"; "cors"; "helmet"; "httpProxy"; "multer"; "fetch";
     "supertokens"; "Session"; "UserMetadata"; "verifySession"; "middleware";
     "errorHandler"; "ThirdPartyEmailPassword"; "apiProxy"; "apiPort";
     "apiDomain"; "websiteDomain"; "jonctionfsUri"; "google"; "storage";
     "upload"; "app"; "addService"; "editService"; "getServiceData";
     "getServices"].

Fixpoint assoc (x : string) (scope : list (string * binding)) : option binding :=
  match scope with
  | [] => None
  | (y, b) :: scope' => if String.eqb x y then Some b else assoc x scope'
  end.

(** Evaluating an identifier: the scope of the function, then that of the
    module.  (Past the module comes the global object of the runtime, which
    has the runtime's own names only.) *)
Definition resolve (scope : list (string * binding)) (x : string) : M world binding :=
  match assoc x scope with
  | Some b => ret b
  | None => throw (ReferenceError x)
  end.

Definition as_jsstring (b : binding) : jsstring :=
  match b with BString s => s | _ => None end.

(** A call to an async function that is not awaited: its effects happen,
    its rejection reaches nobody. *)
Definition detached {A} (m : M world A) : M world unit :=
  fun w => (Ok tt, snd (m w)).

(** Handler of [app.put("/api/*")]. *)
Definition put_api (req : request) (_ : jsstring) : M world response :=
  let name' := body_name req in
  let type' := body_type req in
  let data' := body_data req in
  let scope :=
    [("req", BOther); ("res", BOther); ("name", BString name');
     ("type", BString type'); ("data", BValue data')] ++ module_scope in
  let! userId := resolve scope "userId" in
  detached (addService (as_jsstring userId) name' type' data') ;;
  ret (Status 201).

(** Handler of [app.all("/api/*")]. *)
Definition all_api (env : environment) (req : request) (userId : jsstring)
  : M world response :=
  try_catch
    (let authenticated_user := or_else userId "My-username" in
     let providerId := provider_id req in
     let! providerInfo := getServiceData userId providerId in
     match providerInfo with
     | Found x => proxy_web (JONCTIONFS_URI env) authenticated_user (data x)
     | _ => throw (TypeError "Cannot read properties of null (reading 'data')")
     end)
    (fun err => ret (Status 500)).

(** The three [/api/*] routes in their order of registration; a [HEAD]
    request is served by the [GET] route. *)
Definition api (env : environment) (req : request) : M world response :=
  match req_method req with
  | GET | HEAD => guarded (DISABLE_AUTH env) (req_session req) get_api
  | PUT => guarded (DISABLE_AUTH env) (req_session req) (put_api req)
  | _ => guarded (DISABLE_AUTH env) (req_session req) (all_api env req)
  end.

End Metadata.

(** * The cache-backed variant ([src/unnamed/part_000]) *)

Module Cache.

(** The cache as the gateway sees it: [cache] maps a key to the JSON value
    whose text is stored under it, [sets] logs the [client.set] calls,
    latest first.  The one client sends its commands over one connection,
    so they take effect in program order, awaited or not.  Payloads are
    JSON values, which [JSON.parse] gives back as [JSON.stringify] took
    them. *)
Record world : Type := {
  cache : gmap string value;
  sets : list (string * value)
}.

(** [await client.get(key)]: the stored text, or [null] ([None]). *)
Definition client_get (key : string) : M world (option value) :=
  fun w => (Ok (cache w !! key), w).

(** [client.set(key, JSON.stringify(v))] *)
Definition client_set (key : string) (v : value) : M world unit :=
  fun w => (Ok tt, {| cache := <[key := v]> (cache w); sets := (key, v) :: sets w |}).

(** [await client.sendCommand(['KEYS','*'])] *)
Definition client_keys : M world (list string) :=
  fun w => (Ok (map fst (map_to_list (cache w))), w).

(** An object literal as [JSON.stringify] writes it: a field that is
    [undefined] is left out. *)
Definition object (fields : list (string * value)) : value :=
  VObj (List.filter (fun kv => match snd kv with VUndefined => false | _ => true end) fields).

(** [userId + '_' + name + '_' + type] *)
Definition connectionName (userId name' type' : jsstring) : string :=
  ToString userId ++ "_" ++ ToString name' ++ "_" ++ ToString type'.

(** ** The sign-in interceptor *)

Definition thirdPartySignInUpPOST (env : environment)
    (original : option (signin_input -> completion)) (input : signin_input)
  : M world signin_response :=
  match original with
  | None => throw (Error "Should never come here")
  | Some original =>
      let input := {| clientId := GOOGLE_CLIENT_ID env; payload := payload input |} in
      match original input with
      | Rejects _ =>
          throw (TypeError "Cannot read properties of undefined (reading 'status')")
      | Resolves response =>
          (if String.eqb (status response) "OK" then
             match user response with
             | None => throw (TypeError "Cannot read properties of undefined (reading 'id')")
             | Some id =>
                 client_set (id ++ "_Google Drive_GoogleDrive")
                   (object [("data", authCodeResponse response)])
             end
           else ret tt) ;;
          ret response
      end
  end.

(** ** Route handlers *)

(** The object built from one key by the listing. *)
Definition connection (x : string) : value :=
  let start := indexOf x "_" + 1 in
  let end' := lastIndexOf x "_" in
  VObj [("id", VStr (substring x start end'));
        ("type", VStr (substring_from x (end' + 1)))].

(** Handler of [app.get("/api/*")]. *)
Definition get_api (userId : jsstring) : M world response :=
  let! keys := client_keys in
  let connections :=
    map connection (List.filter (fun x => startsWith x (ToString userId)) keys) in
  ret (Json (VArr connections)).

(** The keys that the listing of [userId] keeps. *)
Definition listed (w : world) (userId : jsstring) : list string :=
  List.filter (fun x => startsWith x (ToString userId)) (map fst (map_to_list (cache w))).

(** Handler of [app.put("/api/*")]. *)
Definition put_api (req : request) (userId : jsstring) : M world response :=
  let name' := body_name req in
  let type' := body_type req in
  let data' := body_data req in
  let connectionName := connectionName userId name' type' in
  let! existingEntry := client_get connectionName in
  match existingEntry with
  | Some _ =>
      (* return new Response(...): nothing is sent through [res] *)
      ret NoReply
  | None =>
      client_set connectionName (object [("name", of_jsstring name'); ("data", data')]) ;;
      ret (Status 201)
  end.

(** Handler of [app.all("/api/*")]. *)
Definition all_api (env : environment) (req : request) (userId : jsstring)
  : M world response :=
  try_catch
    (let authenticated_user := or_else userId "My-username" in
     let providerId := provider_id req in
     let providerType := provider_type req in
     let connectionName := connectionName userId providerId providerType in
     let! entry := client_get connectionName in
     (* JSON.parse(null) is null *)
     let providerInfo := default VNull entry in
     let! credentials := get_property providerInfo "data" in
     proxy_web (JONCTIONFS_URI env) authenticated_user credentials)
    (fun err => ret (Status 500)).

(** The three [/api/*] routes in their order of registration; a [HEAD]
    request is served by the [GET] route. *)
Definition api (env : environment) (req : request) : M world response :=
  match req_method req with
  | GET | HEAD => guarded (DISABLE_AUTH env) (req_session req) get_api
  | PUT => guarded (DISABLE_AUTH env) (req_session req) (put_api req)
  | _ => guarded (DISABLE_AUTH env) (req_session req) (all_api env req)
  end.

End Cache.

(** * Sample inputs *)

Module Examples.

Definition env : environment :=
  {| DISABLE_AUTH := None;
     JONCTIONFS_URI := Some "http://backend";
     GOOGLE_CLIENT_ID := Some "client-id" |}.

Definition token : value := VObj [("token", VStr "abc")].

Definition fresh_token : value := VObj [("token", VStr "xyz")].

Definition drive : Metadata.service :=
  Metadata.record (Some "Google Drive") (Some "GoogleDrive") token.

Definition box : Metadata.service :=
  Metadata.record (Some "Box") (Some "Box") (VStr "secret").

(** Nobody has a collection yet. *)
Definition fresh : Metadata.world :=
  {| Metadata.metadata := ∅; Metadata.writes := []; Metadata.tape := [] |}.

(** [u1] has linked two services. *)
Definition linked : Metadata.world :=
  {| Metadata.metadata := {[ "u1" := Metadata.Services [box; drive] ]};
     Metadata.writes := [];
     Metadata.tape := [] |}.

(** The collection of [u1] has become a number; updates are delivered in
    the order they were issued. *)
Definition broken : Metadata.world :=
  {| Metadata.metadata := {[ "u1" := Metadata.Corrupt 5 ]};
     Metadata.writes := [];
     Metadata.tape := [] |}.

(** The same, with the reset overtaken by the read that follows it. *)
Definition broken_late : Metadata.world :=
  {| Metadata.metadata := {[ "u1" := Metadata.Corrupt 5 ]};
     Metadata.writes := [];
     Metadata.tape := [false] |}.

Definition empty_cache : Cache.world :=
  {| Cache.cache := ∅; Cache.sets := [] |}.

Definition one_cache : Cache.world :=
  {| Cache.cache := {[ "u1_Google Drive_GoogleDrive" := VObj [("data", token)] ]};
     Cache.sets := [] |}.

(** [u1] has one entry, and so has [u12]. *)
Definition shared_cache : Cache.world :=
  {| Cache.cache :=
       <[ "u12_Box_Box" := VObj [("name", VStr "Box"); ("data", VStr "secret")] ]>
         (Cache.cache one_cache);
     Cache.sets := [] |}.

(** A request with session [session] for the service [n] of type [t]. *)
Definition request_of (m : method) (session n t : jsstring) : request :=
  {| req_method := m; req_session := session;
     provider_id := n; provider_type := t;
     body_name := n; body_type := t; body_data := VStr "secret" |}.

(** A completion that signs [u1] in. *)
Definition signs_in (input : signin_input) : completion :=
  Resolves {| status := "OK"; user := Some "u1"; authCodeResponse := fresh_token |}.

Definition form : signin_input := {| clientId := None; payload := VNull |}.

End Examples.

(** * The profile field as the identity service holds it *)

Module Profile.

(** The [services] field of a profile can hold any JSON value, and
    [getServices] reads it whatever it is.  [Metadata] above is this store
    with every field that is there holding a number or an array of
    records, the shapes the rest of the code tells apart. *)
Record world : Type := {
  metadata : gmap string value;
  writes : list (string * value);
  tape : list bool
}.

Definition getUserMetadata (userId : jsstring) : M world value :=
  fun w =>
    match userId with
    | Some u => (Ok (default VUndefined (metadata w !! u)), w)
    | None => (Throw (CoreError "userId is missing"), w)
    end.

Definition updateUserMetadata (userId : jsstring) (services : value)
  : M world unit :=
  fun w =>
    match userId with
    | Some u =>
        (Ok tt, {| metadata := <[u := services]> (metadata w);
                   writes := (u, services) :: writes w;
                   tape := tape w |})
    | None => (Throw (CoreError "userId is missing"), w)
    end.

Definition delivered_first : M world bool :=
  fun w =>
    match tape w with
    | [] => (Ok true, w)
    | b :: t => (Ok b, {| metadata := metadata w; writes := writes w; tape := t |})
    end.

(** The world once the reset of [u]'s field has been delivered and the
    schedule has moved on by one step. *)
Definition repaired (w : world) (u : string) : world :=
  {| metadata := <[u := VArr []]> (metadata w);
     writes := (u, VArr []) :: writes w;
     tape := tl (tape w) |}.

Definition getServices (userId : jsstring) : M world value :=
  let! services := getUserMetadata userId in
  match services with
  | VNum _ =>
      (* typeof metadata.services == "number": the update is not awaited *)
      let! first := delivered_first in
      if (first : bool) then
        updateUserMetadata userId (VArr []) ;;
        getUserMetadata userId
      else
        let! stale := getUserMetadata userId in
        updateUserMetadata userId (VArr []) ;;
        ret stale
  | _ => ret services
  end.

(** ** The typed store inside it *)

Definition of_service (x : Metadata.service) : value :=
  Cache.object [("name", of_jsstring (Metadata.name x));
                ("type", of_jsstring (Metadata.type x));
                ("data", Metadata.data x)].

Definition of_stored (s : Metadata.stored) : value :=
  match s with
  | Metadata.Corrupt n => VNum n
  | Metadata.Services l => VArr (map of_service l)
  end.

Definition of_result (r : option Metadata.stored) : value :=
  from_option of_stored VUndefined r.

Definition of_world (w : Metadata.world) : world :=
  {| metadata := of_stored <$> Metadata.metadata w;
     writes := map (fun uw => (fst uw, of_stored (snd uw))) (Metadata.writes w);
     tape := Metadata.tape w |}.

End Profile.

(** * Routes outside [/api/*] *)

Module Site.

(** What these handlers do with [res]. *)
Inductive reply : Type :=
| Send (body : string)            (* [res.send(body)] *)
| End (code : Z)                  (* [res.status(code).end()] *)
| Denied.                         (* the session middleware's reply *)

(** ** The upload relay ([POST /upload/google-drive/*], [index.js]) *)

Record upload_request : Type := {
  url : string;                   (* [req.url] *)
  content_length : jsstring;      (* [req.headers["content-length"]] *)
  file : option string            (* [req.file.buffer]; [None]: no [req.file] *)
}.

(** One call of [fetch]. *)
Record outbound : Type := {
  out_url : string;
  out_method : string;
  out_content_length : jsstring;
  out_body : string
}.

(** How a call of [fetch] ends. *)
Inductive fetched : Type :=
| Responds (status : Z)
| Unreachable (e : exn).

(** The handler, over the log of the calls of [fetch], latest first. *)
Definition upload (fetch : outbound -> fetched) (req : upload_request)
  : M (list outbound) reply :=
  let googleUrl := substring_from (url req) 21 in
  match file req with
  | None => throw (TypeError "Cannot read properties of undefined (reading 'buffer')")
  | Some buffer =>
      let call :=
        {| out_url := googleUrl; out_method := "PUT";
           out_content_length := content_length req; out_body := buffer |} in
      fun sent =>
        match fetch call with
        | Responds status => (Ok (End status), call :: sent)
        | Unreachable e => (Throw e, call :: sent)
        end
  end.

(** ** Logout ([GET /auth/logout]) *)

(** [req.session]: the handle of the session and the user it belongs to. *)
Record session : Type := {
  handle : string;
  userId : string
}.

(** The session service: the handles that have not been revoked. *)
Record sessions : Type := {
  live : gset string
}.

(** The user a presented session authenticates, if it is still live. *)
Definition authenticated (presented : option session) (w : sessions) : jsstring :=
  match presented with
  | Some s => if decide (handle s ∈ live w) then Some (userId s) else None
  | None => None
  end.

(** Modelled from the spec: [revokeSession] is an operation of the session
    library; section 4.3 says it revokes the current session, after which
    (section 8) a request with the old session is rejected. *)
Definition revokeSession (s : session) : M sessions unit :=
  fun w => (Ok tt, {| live := live w ∖ {[ handle s ]} |}).

Definition logout (DISABLE_AUTH : jsstring) (presented : option session)
  : M sessions reply :=
  fun w =>
    match verifySession (sessionRequired DISABLE_AUTH) (authenticated presented w) with
    | Reject => (Ok Denied, w)
    | Next None =>
        (* req.session is undefined *)
        (Throw (TypeError "Cannot read properties of undefined (reading 'revokeSession')"), w)
    | Next (Some _) =>
        match presented with
        | Some s => (revokeSession s ;; ret (Send "Success! User session revoked")) w
        | None => (Throw (TypeError "Cannot read properties of undefined (reading 'revokeSession')"), w)
        end
    end.

End Site.

(** * More sample inputs *)

Module Samples.

(** A backend that answers every upload with [200]. *)
Definition accepts (call : Site.outbound) : Site.fetched := Site.Responds 200.

Definition photo : Site.upload_request :=
  {| Site.url := "/upload/google-drive/https://www.googleapis.com/upload?id=7";
     Site.content_length := Some "3";
     Site.file := Some "abc" |}.

Definition alice : Site.session := {| Site.handle := "h1"; Site.userId := "u1" |}.

Definition bob : Site.session := {| Site.handle := "h2"; Site.userId := "u2" |}.

Definition both_live : Site.sessions := {| Site.live := {[ "h1"; "h2" ]} |}.

(** A completion that answers with another status. *)
Definition declines (input : signin_input) : completion :=
  Resolves {| status := "NO_EMAIL_GIVEN_BY_PROVIDER"; user := None;
              authCodeResponse := VUndefined |}.

(** A completion that throws. *)
Definition crashes (input : signin_input) : completion :=
  Rejects (Error "provider is down").

(** [u1_x] has registered [Box]. *)
Definition underscore_cache : Cache.world :=
  {| Cache.cache := {[ "u1_x_Box_Box" := VObj [("name", VStr "Box"); ("data", VStr "secret")] ]};
     Cache.sets := [] |}.



End Samples.

(** * Vocabulary for frame properties *)

Module Frame.

(** The computation leaves the collection of [v] as it finds it. *)
Definition spares (v : string) {A} (m : M Metadata.world A) : Prop :=
  forall w, Metadata.metadata (snd (m w)) !! v = Metadata.metadata w !! v.

(** The computation leaves the records of every user as it finds them. *)
Definition keeps_records {A} (m : M Metadata.world A) : Prop :=
  forall w v,
    Metadata.records (Metadata.metadata (snd (m w)) !! v)
    = Metadata.records (Metadata.metadata w !! v).

(** No stored collection is the number. *)
Definition healthy (w : Metadata.world) : Prop :=
  forall u k, Metadata.metadata w !! u <> Some (Metadata.Corrupt k).

(** On a healthy store the computation changes nothing at all. *)
Definition read_only {A} (m : M Metadata.world A) : Prop :=
  forall w, healthy w -> snd (m w) = w.

(** The computation leaves every entry of the cache as it finds it. *)
Definition keeps_entries {A} (m : M Cache.world A) : Prop :=
  forall w k v,
    Cache.cache w !! k = Some v -> Cache.cache (snd (m w)) !! k = Some v.

End Frame.

(** * Properties of the metadata-backed variant *)

Module MetadataFacts.
Import Metadata.

(** Unfolds the monad, so that a handler becomes a function of the world. *)
Ltac run :=
  unfold bind, ret, throw, try_catch, getUserMetadata, updateUserMetadata,
    delivered_first in *; simpl in *.

(** ** Reading the collection *)

Lemma getServices_absent (w : world) (u : string) :
  metadata w !! u = None ->
  getServices (Some u) w = (Ok None, w).
Proof. intros H. unfold getServices. run. by rewrite H. Qed.

Lemma getServices_array (w : world) (u : string) (l : list service) :
  metadata w !! u = Some (Services l) ->
  getServices (Some u) w = (Ok (Some (Services l)), w).
Proof. intros H. unfold getServices. run. by rewrite H. Qed.

Lemma getServices_corrupt (w : world) (u : string) (n : Z) :
  metadata w !! u = Some (Corrupt n) ->
  getServices (Some u) w =
    (Ok (Some (if hd true (tape w) then Services [] else Corrupt n)),
     repaired w u).
Proof.
  intros H. destruct w as [m ws tp]. unfold getServices, repaired. run.
  rewrite H. destruct tp as [|[] t]; simpl; rewrite ?lookup_insert_eq, ?H; done.
Qed.

Lemma getServices_not_corrupt (w : world) (u : string) :
  (forall n, metadata w !! u <> Some (Corrupt n)) ->
  getServices (Some u) w = (Ok (metadata w !! u), w).
Proof.
  intros H. destruct (metadata w !! u) as [[n|l]|] eqn:E.
  - by destruct (H n).
  - by apply getServices_array.
  - by apply getServices_absent.
Qed.

(** [getServices] never raises for a user id that is there. *)
Lemma getServices_returns (w : world) (u : string) :
  exists r w', getServices (Some u) w = (Ok r, w').
Proof.
  destruct (metadata w !! u) as [[n|l]|] eqn:E.
  - rewrite (getServices_corrupt _ _ _ E). eauto.
  - rewrite (getServices_array _ _ _ E). eauto.
  - rewrite (getServices_absent _ _ E). eauto.
Qed.

(** ** Looking a record up by name *)

Lemma loose_eq_true (a b : jsstring) : loose_eq a b = true <-> a = b.
Proof.
  destruct a as [x|], b as [y|]; simpl; try (split; congruence).
  rewrite String.eqb_eq. split; congruence.
Qed.

Lemma loose_eq_false (a b : jsstring) : loose_eq a b = false <-> a <> b.
Proof.
  rewrite <- loose_eq_true. destruct (loose_eq a b); split; congruence.
Qed.

Lemma find_miss (n : jsstring) (l : list service) :
  n ∉ map name l -> find (named n) l = None.
Proof.
  induction l as [|x l IH]; simpl; [done|]. intros H.
  apply not_elem_of_cons in H as [Hx Hl]. unfold named at 1.
  destruct (loose_eq (name x) n) eqn:E; [|by apply IH].
  apply loose_eq_true in E. congruence.
Qed.

Lemma find_hit (n : jsstring) (l1 l2 : list service) (x : service) :
  n ∉ map name l1 -> name x = n -> find (named n) (l1 ++ x :: l2) = Some x.
Proof.
  intros H1 Hx. induction l1 as [|y l1 IH]; simpl.
  - unfold named. by rewrite (proj2 (loose_eq_true _ _) Hx).
  - simpl in H1. apply not_elem_of_cons in H1 as [Hy Hl]. unfold named at 1.
    destruct (loose_eq (name y) n) eqn:E; [|by apply IH].
    apply loose_eq_true in E. congruence.
Qed.

(** A collection that has a record named [n] splits at the first one. *)
Lemma first_named (n : jsstring) (l : list service) :
  n ∈ map name l ->
  exists l1 x l2, l = l1 ++ x :: l2 /\ name x = n /\ n ∉ map name l1.
Proof.
  induction l as [|y l IH]; simpl; intros H; [by apply elem_of_nil in H|].
  destruct (decide (name y = n)) as [E|E].
  - exists [], y, l. repeat split; [done|]. simpl. apply not_elem_of_nil.
  - apply elem_of_cons in H as [H|H]; [congruence|].
    destruct (IH H) as (l1 & x & l2 & -> & Hx & Hl1).
    exists (y :: l1), x, l2. repeat split; [done|]. simpl.
    apply not_elem_of_cons. split; [congruence|done].
Qed.

Lemma findIndex_miss (n : jsstring) (l : list service) :
  n ∉ map name l -> findIndex n l = -1.
Proof.
  induction l as [|x l IH]; simpl; [done|]. intros H.
  apply not_elem_of_cons in H as [Hx Hl].
  destruct (loose_eq (name x) n) eqn:E.
  - apply loose_eq_true in E. congruence.
  - by rewrite (IH Hl).
Qed.

Lemma findIndex_hit (n : jsstring) (l1 l2 : list service) (x : service) :
  n ∉ map name l1 -> name x = n ->
  findIndex n (l1 ++ x :: l2) = Z.of_nat (length l1).
Proof.
  intros H1 Hx. induction l1 as [|y l1 IH]; simpl.
  - by rewrite (proj2 (loose_eq_true _ _) Hx).
  - simpl in H1. apply not_elem_of_cons in H1 as [Hy Hl].
    destruct (loose_eq (name y) n) eqn:E.
    + apply loose_eq_true in E. congruence.
    + rewrite (IH Hl). destruct (Z.ltb_spec (Z.of_nat (length l1)) 0); lia.
Qed.

Lemma getServiceData_array (w : world) (u : string) (n : jsstring)
    (l : list service) :
  metadata w !! u = Some (Services l) ->
  getServiceData (Some u) n w =
    (Ok (match find (named n) l with Some x => Found x | None => IsUndefined end), w).
Proof.
  intros H. unfold getServiceData, bind. by rewrite (getServices_array _ _ _ H).
Qed.

Lemma getServiceData_absent (w : world) (u : string) (n : jsstring) :
  metadata w !! u = None ->
  getServiceData (Some u) n w = (Ok IsNull, w).
Proof.
  intros H. unfold getServiceData, bind. by rewrite (getServices_absent _ _ H).
Qed.

(** ** Registering and updating *)

Lemma addService_conflict (w : world) (u : string) (n t : jsstring)
    (d : value) (l : list service) :
  metadata w !! u = Some (Services l) -> n ∈ map name l ->
  addService (Some u) n t d w =
    (Throw (Thrown "Trying to add a service which already exists"), w).
Proof.
  intros H Hn. destruct (first_named _ _ Hn) as (l1 & x & l2 & -> & Hx & Hl1).
  unfold addService, bind.
  rewrite (getServices_array _ _ _ H), (getServiceData_array _ _ _ _ H).
  by rewrite (find_hit _ _ _ _ Hl1 Hx).
Qed.

Lemma addService_fresh_array (w : world) (u : string) (n t : jsstring)
    (d : value) (l : list service) :
  metadata w !! u = Some (Services l) -> n ∉ map name l ->
  addService (Some u) n t d w =
    (Ok tt, written w u (Services (l ++ [record n t d]))).
Proof.
  intros H Hn. unfold addService, bind.
  rewrite (getServices_array _ _ _ H), (getServiceData_array _ _ _ _ H).
  rewrite (find_miss _ _ Hn). simpl. by destruct l.
Qed.

Lemma addService_absent (w : world) (u : string) (n t : jsstring) (d : value) :
  metadata w !! u = None ->
  addService (Some u) n t d w = (Ok tt, written w u (Services [record n t d])).
Proof.
  intros H. unfold addService, bind.
  by rewrite (getServices_absent _ _ H), (getServiceData_absent _ _ _ H).
Qed.

Lemma addService_corrupt (w : world) (u : string) (n t : jsstring) (d : value)
    (k : Z) :
  metadata w !! u = Some (Corrupt k) ->
  addService (Some u) n t d w =
    (Ok tt, written (repaired w u) u (Services [record n t d])).
Proof.
  intros H. unfold addService, bind.
  rewrite (getServices_corrupt _ _ _ H).
  assert (metadata (repaired w u) !! u = Some (Services [])) as H'
    by apply lookup_insert_eq.
  rewrite (getServiceData_array _ _ _ _ H'). simpl.
  by destruct (hd true (tape w)).
Qed.

Lemma editService_hit (w : world) (u : string) (n : jsstring) (d : value)
    (l1 l2 : list service) (x : service) :
  metadata w !! u = Some (Services (l1 ++ x :: l2)) ->
  n ∉ map name l1 -> name x = n ->
  editService (Some u) n d w =
    (Ok tt, written w u (Services (l1 ++ set_service_data x d :: l2))).
Proof.
  intros H Hl1 Hx. unfold editService, bind.
  rewrite (getServices_array _ _ _ H), (findIndex_hit _ _ _ _ Hl1 Hx).
  destruct (Z.ltb_spec (Z.of_nat (length l1)) 0); [lia|].
  rewrite Nat2Z.id, list_lookup_middle by done.
  assert (<[length l1 := set_service_data x d]> (l1 ++ x :: l2)
          = l1 ++ set_service_data x d :: l2) as ->.
  { rewrite insert_app_r_alt by lia. by rewrite Nat.sub_diag. }
  done.
Qed.

Lemma editService_miss (w : world) (u : string) (n : jsstring) (d : value) :
  n ∉ map name (records (metadata w !! u)) ->
  exists what w',
    editService (Some u) n d w = (Throw (TypeError what), w') /\
    records (metadata w' !! u) = records (metadata w !! u) /\
    ((forall k, metadata w !! u <> Some (Corrupt k)) -> w' = w).
Proof.
  intros Hn. unfold editService, bind.
  destruct (metadata w !! u) as [[k|l]|] eqn:E.
  - rewrite (getServices_corrupt _ _ _ E).
    assert (records (metadata (repaired w u) !! u) = []) as Hr.
    { unfold repaired; simpl. by rewrite lookup_insert_eq. }
    destruct (hd true (tape w)); simpl.
    + do 2 eexists. split; [done|]. split; [done|]. intros H. by destruct (H k).
    + do 2 eexists. split; [done|]. split; [done|]. intros H. by destruct (H k).
  - rewrite (getServices_array _ _ _ E). simpl in Hn.
    rewrite (findIndex_miss _ _ Hn). simpl.
    do 2 eexists. split; [done|]. by rewrite E.
  - rewrite (getServices_absent _ _ E). simpl.
    do 2 eexists. split; [done|]. by rewrite E.
Qed.

(** ** Routing *)

Lemma metadata_api_signed_in (env : environment) (req : request) (u : string)
    (w : world) :
  req_session req = Some u ->
  api env req w =
    match req_method req with
    | GET | HEAD => get_api (Some u) w
    | PUT => put_api req (Some u) w
    | _ => all_api env req (Some u) w
    end.
Proof.
  intros H. unfold api, guarded, verifySession. rewrite H.
  by destruct (req_method req).
Qed.

End MetadataFacts.

(** * Properties of the string methods *)

Module StringFacts.

#[local] Arguments String.append !_ _ : simpl nomatch.

Lemma startsWith_refl (x : string) : startsWith x x = true.
Proof. induction x as [|c x IH]; simpl; [done|]. by rewrite Ascii.eqb_refl. Qed.

Lemma startsWith_trans (k b a : string) :
  startsWith k b = true -> startsWith b a = true -> startsWith k a = true.
Proof.
  revert k b. induction a as [|c a IH]; intros k b Hkb Hba; [by destruct k|].
  destruct b as [|d b]; [done|]. destruct k as [|e k]; [done|].
  simpl in *. apply andb_prop in Hkb as [H1 H2]. apply andb_prop in Hba as [H3 H4].
  apply Ascii.eqb_eq in H1, H3. subst. rewrite Ascii.eqb_refl. simpl. eauto.
Qed.

Lemma startsWith_append (a b : string) : startsWith (a ++ b) a = true.
Proof. induction a as [|c a IH]; simpl; [done|]. by rewrite Ascii.eqb_refl. Qed.

Lemma length_append (a b : string) :
  String.length (a ++ b) = (String.length a + String.length b)%nat.
Proof. induction a as [|c a IH]; simpl; [done|]. by rewrite IH. Qed.

Lemma append_assoc (a b c : string) : ((a ++ b) ++ c = a ++ b ++ c)%string.
Proof. induction a as [|x a IH]; simpl; [done|]. by rewrite IH. Qed.

Lemma substring_prefix (b c : string) :
  String.substring 0 (String.length b) (b ++ c) = b.
Proof.
  induction b as [|x b IH]; simpl; [by destruct c|]. by rewrite IH.
Qed.

Lemma substring_middle (a b c : string) :
  String.substring (String.length a) (String.length b) (a ++ b ++ c) = b.
Proof. induction a as [|x a IH]; simpl; [apply substring_prefix|done]. Qed.

Lemma indexOf_lower (x : string) (c : ascii) : -1 <= indexOf x c.
Proof.
  induction x as [|d x IH]; simpl; [lia|].
  destruct (Ascii.eqb d c); [lia|]. destruct (Z.ltb_spec (indexOf x c) 0); lia.
Qed.

Lemma indexOf_append (u r : string) (c : ascii) :
  indexOf u c = -1 ->
  indexOf (u ++ String c r) c = Z.of_nat (String.length u).
Proof.
  induction u as [|d u IH]; simpl; intros H.
  - by rewrite Ascii.eqb_refl.
  - destruct (Ascii.eqb d c); [lia|].
    destruct (Z.ltb_spec (indexOf u c) 0) as [Hlt|Hge].
    + pose proof (indexOf_lower u c). rewrite IH by lia.
      destruct (Z.ltb_spec (Z.of_nat (String.length u)) 0); lia.
    + lia.
Qed.

Lemma lastIndexOf_absent (t : string) (c : ascii) :
  indexOf t c = -1 -> lastIndexOf t c = -1.
Proof.
  induction t as [|d t IH]; simpl; [done|].
  destruct (Ascii.eqb d c); [lia|]. intros H.
  destruct (Z.ltb_spec (indexOf t c) 0) as [Hlt|Hge]; [|lia].
  pose proof (indexOf_lower t c). rewrite IH by lia. done.
Qed.

Lemma lastIndexOf_append (p t : string) (c : ascii) :
  lastIndexOf t c = -1 ->
  lastIndexOf (p ++ String c t) c = Z.of_nat (String.length p).
Proof.
  intros H. induction p as [|d p IH]; simpl.
  - rewrite H. simpl. by rewrite Ascii.eqb_refl.
  - rewrite IH. destruct (Z.leb_spec 0 (Z.of_nat (String.length p))); lia.
Qed.

(** A key [u_n_t] whose first and last parts have no underscore is taken
    apart into [n] and [t] by the two substrings of the listing. *)
Lemma substring_name (u n t : string) :
  indexOf u "_" = -1 -> indexOf t "_" = -1 ->
  let x := (u ++ "_" ++ n ++ "_" ++ t)%string in
  substring x (indexOf x "_" + 1) (lastIndexOf x "_") = n /\
  substring_from x (lastIndexOf x "_" + 1) = t.
Proof.
  intros Hu Ht x.
  assert (indexOf x "_" = Z.of_nat (String.length u)) as Hi
    by (apply (indexOf_append u (n ++ "_" ++ t) "_" Hu)).
  assert (lastIndexOf x "_" = Z.of_nat (String.length (u ++ "_" ++ n))) as Hl.
  { unfold x. rewrite <- (lastIndexOf_append (u ++ "_" ++ n) t "_")
      by (by apply lastIndexOf_absent).
    f_equal. by rewrite !append_assoc. }
  assert (String.length x
          = (String.length u + 1 + String.length n + 1 + String.length t)%nat) as Hx.
  { unfold x. rewrite !length_append. simpl. lia. }
  rewrite Hi, Hl. rewrite !length_append. simpl String.length.
  unfold substring_from, substring. rewrite Hx. split.
  - replace (Z.to_nat _) with (String.length (u ++ "_")) at 1
      by (rewrite length_append; simpl; lia).
    replace (Z.to_nat _) with (String.length n) by lia.
    unfold x. rewrite <- (append_assoc u "_"). apply substring_middle.
  - replace (Z.to_nat _) with (String.length (u ++ "_" ++ n ++ "_")) at 1
      by (rewrite !length_append; simpl; lia).
    replace (Z.to_nat _) with (String.length t) by lia.
    replace x with ((u ++ "_" ++ n ++ "_") ++ t ++ "")%string.
    + apply substring_middle.
    + unfold x. rewrite !append_assoc. simpl. do 4 f_equal.
      clear. induction t as [|c t IH]; simpl; [done|]. by rewrite IH.
Qed.

End StringFacts.

(** * Properties of the cache-backed variant *)

Module CacheFacts.
Import Cache.

Section Listing.

Variables (w : world) (userId : jsstring).

Lemma get_api_listed :
  get_api userId w = (Ok (Json (VArr (map connection (listed w userId)))), w).
Proof. reflexivity. Qed.

Lemma elem_of_listed (k : string) :
  k ∈ listed w userId <->
  is_Some (cache w !! k) /\ startsWith k (ToString userId) = true.
Proof.
  unfold listed. rewrite list_elem_of_In, filter_In, <- list_elem_of_In.
  rewrite list_elem_of_fmap. split.
  - intros [([k' v] & -> & Hin) Hp]. split; [|done].
    apply elem_of_map_to_list in Hin. by exists v.
  - intros [[v Hv] Hp]. split; [|done].
    exists (k, v). split; [done|]. by apply elem_of_map_to_list.
Qed.

Lemma NoDup_listed : NoDup (listed w userId).
Proof.
  unfold listed. apply NoDup_ListNoDup, List.NoDup_filter, NoDup_ListNoDup.
  apply NoDup_fst_map_to_list.
Qed.

Lemma is_listed (k : string) :
  is_Some (cache w !! k) -> startsWith k (ToString userId) = true ->
  connection k ∈ map connection (listed w userId).
Proof.
  intros Hk Hp. apply list_elem_of_fmap. exists k. split; [done|].
  by apply elem_of_listed.
Qed.

End Listing.

Lemma connection_keys (ks : list string) :
  Forall (fun o => keys o = ["id"; "type"]) (map connection ks).
Proof. apply Forall_fmap, Forall_forall. by intros k _. Qed.

Lemma cache_api_signed_in (env : environment) (req : request) (u : string)
    (w : world) :
  req_session req = Some u ->
  api env req w =
    match req_method req with
    | GET | HEAD => get_api (Some u) w
    | PUT => put_api req (Some u) w
    | _ => all_api env req (Some u) w
    end.
Proof.
  intros H. unfold api, guarded, verifySession. rewrite H.
  by destruct (req_method req).
Qed.

End CacheFacts.

(** * Properties of the profile field *)

Module ProfileFacts.
Import Profile.

Lemma read_number (w : world) (u : string) (n : Z) :
  metadata w !! u = Some (VNum n) ->
  getServices (Some u) w =
    (Ok (if hd true (tape w) then VArr [] else VNum n), repaired w u).
Proof.
  intros H. destruct w as [m ws tp]. unfold getServices, repaired, bind, ret,
    getUserMetadata, updateUserMetadata, delivered_first. simpl in *.
  rewrite H. simpl. destruct tp as [|[] t]; simpl; rewrite ?lookup_insert_eq, ?H; done.
Qed.

Lemma read_other (w : world) (u : string) (v : value) :
  metadata w !! u = Some v -> (forall n, v <> VNum n) ->
  getServices (Some u) w = (Ok v, w).
Proof.
  intros H Hv. unfold getServices, bind, ret, getUserMetadata. rewrite H. simpl.
  destruct v; try done. by destruct (Hv n).
Qed.

Lemma read_absent (w : world) (u : string) :
  metadata w !! u = None -> getServices (Some u) w = (Ok VUndefined, w).
Proof.
  intros H. unfold getServices, bind, ret, getUserMetadata. by rewrite H.
Qed.

(** On a typed store the read of [Metadata] is this read. *)
Lemma read_refines (userId : jsstring) (w : Metadata.world) :
  getServices userId (of_world w) =
    (match fst (Metadata.getServices userId w) with
     | Ok r => Ok (of_result r)
     | Throw e => Throw e
     end,
     of_world (snd (Metadata.getServices userId w))).
Proof.
  destruct userId as [u|]; [|done].
  assert (metadata (of_world w) !! u = of_stored <$> Metadata.metadata w !! u) as E
    by apply lookup_fmap.
  destruct (Metadata.metadata w !! u) as [[n|l]|] eqn:H; simpl in E.
  - rewrite (read_number (of_world w) u n E).
    rewrite (MetadataFacts.getServices_corrupt _ _ _ H). simpl.
    f_equal; [by destruct (hd true (Metadata.tape w))|].
    unfold repaired, of_world. simpl. f_equal. by rewrite fmap_insert.
  - rewrite (MetadataFacts.getServices_array _ _ _ H). simpl.
    apply (read_other (of_world w) u _ E). discriminate.
  - rewrite (MetadataFacts.getServices_absent _ _ H). simpl.
    apply (read_absent (of_world w) u E).
Qed.

End ProfileFacts.

(** * The claims *)

(** ** Listing *)

(** C1, as amended.  In the metadata-backed variant, a [GET /api/*] request
    of a signed-in user whose stored collection is an array is answered
    with exactly the name-and-type projection of that array, record by
    record and in order, and the store is left alone.  In the cache-backed
    variant the request is answered with one object per key of the cache
    that starts with the user id, parsed from the key, whose fields are
    [id] and [type].  In neither variant does an element of the answer
    have a [data] field. *)
Theorem C1_listing_projection (env : environment) (req : request) (u : string)
    (l : list Metadata.service) (w : Metadata.world) (cw : Cache.world)
    (Hget : req_method req = GET)
    (Hsession : req_session req = Some u)
    (H : Metadata.metadata w !! u = Some (Metadata.Services l)) :
  (Metadata.api env req w =
     (Ok (Json (VArr (map Metadata.name_and_type l))), w) /\
   Forall (fun o => keys o = ["name"; "type"]) (map Metadata.name_and_type l)) /\
  (exists ks,
     Cache.api env req cw = (Ok (Json (VArr (map Cache.connection ks))), cw) /\
     NoDup ks /\
     (forall k, k ∈ ks <-> is_Some (Cache.cache cw !! k) /\ startsWith k u = true) /\
     Forall (fun o => keys o = ["id"; "type"]) (map Cache.connection ks)).
Proof.
  rewrite (MetadataFacts.metadata_api_signed_in _ _ _ _ Hsession).
  rewrite (CacheFacts.cache_api_signed_in _ _ _ _ Hsession). rewrite Hget.
  split; [split|].
  - unfold Metadata.get_api, bind.
    by rewrite (MetadataFacts.getServices_array _ _ _ H).
  - apply Forall_fmap, Forall_forall. by intros x _.
  - exists (Cache.listed cw (Some u)). split; [apply CacheFacts.get_api_listed|].
    split; [apply CacheFacts.NoDup_listed|]. split.
    + intros k. apply CacheFacts.elem_of_listed.
    + apply CacheFacts.connection_keys.
Qed.

Lemma C1_listing_projection_witness :
  let req := Examples.request_of GET (Some "u1") None None in
  Metadata.metadata Examples.linked !! "u1"
    = Some (Metadata.Services [Examples.box; Examples.drive]) /\
  Metadata.api Examples.env req Examples.linked =
    (Ok (Json (VArr [VObj [("name", VStr "Box"); ("type", VStr "Box")];
                     VObj [("name", VStr "Google Drive"); ("type", VStr "GoogleDrive")]])),
     Examples.linked).
Proof.
  intros req. split; [reflexivity|].
  apply (C1_listing_projection Examples.env req "u1" [Examples.box; Examples.drive]
           Examples.linked Examples.shared_cache); reflexivity.
Defined.

(** C1 as stated fails in the cache-backed variant: the one record of [u1]
    is listed under the field [id], so the answer is not the name-and-type
    projection of the collection. *)
Lemma C1_cache_listing_has_id_not_name :
  let req := Examples.request_of GET (Some "u1") None None in
  Cache.api Examples.env req Examples.one_cache =
    (Ok (Json (VArr [VObj [("id", VStr "Google Drive"); ("type", VStr "GoogleDrive")]])),
     Examples.one_cache) /\
  Cache.api Examples.env req Examples.one_cache <>
    (Ok (Json (VArr [VObj [("name", VStr "Google Drive"); ("type", VStr "GoogleDrive")]])),
     Examples.one_cache).
Proof.
  intros req.
  assert (Cache.api Examples.env req Examples.one_cache =
    (Ok (Json (VArr [VObj [("id", VStr "Google Drive"); ("type", VStr "GoogleDrive")]])),
     Examples.one_cache)) as E by reflexivity.
  split; [exact E|]. rewrite E. intros H. discriminate H.
Qed.

(** C8, as amended.  For a signed-in user with no records, [getServices]
    never raises and what it returns has no records.  When the stored
    collection is the empty array it returns the empty array and
    [GET /api/*] answers with the empty JSON array; when no collection was
    ever stored it returns [undefined] and the handler passes [undefined]
    to [res.json], so the body holds no array.  Neither read writes to the
    store. *)
Theorem C8_listing_without_records (env : environment) (req : request)
    (u : string) (w : Metadata.world)
    (Hget : req_method req = GET)
    (Hsession : req_session req = Some u)
    (H : Metadata.records (Metadata.metadata w !! u) = []) :
  (exists r w',
     Metadata.getServices (Some u) w = (Ok r, w') /\ Metadata.records r = []) /\
  (Metadata.metadata w !! u = Some (Metadata.Services []) ->
   Metadata.getServices (Some u) w = (Ok (Some (Metadata.Services [])), w) /\
   Metadata.api env req w = (Ok (Json (VArr [])), w)) /\
  (Metadata.metadata w !! u = None ->
   Metadata.getServices (Some u) w = (Ok None, w) /\
   Metadata.api env req w = (Ok (Json VUndefined), w)).
Proof.
  rewrite (MetadataFacts.metadata_api_signed_in _ _ _ _ Hsession), Hget.
  split.
  { destruct (Metadata.metadata w !! u) as [[k|l]|] eqn:E.
    - rewrite (MetadataFacts.getServices_corrupt _ _ _ E).
      do 2 eexists. split; [done|]. by destruct (hd true (Metadata.tape w)).
    - rewrite (MetadataFacts.getServices_array _ _ _ E). eauto.
    - rewrite (MetadataFacts.getServices_absent _ _ E). eauto. }
  split; intros E.
  - unfold Metadata.get_api, bind.
    by rewrite (MetadataFacts.getServices_array _ _ _ E).
  - unfold Metadata.get_api, bind.
    by rewrite (MetadataFacts.getServices_absent _ _ E).
Qed.

Lemma C8_listing_without_records_witness :
  let req := Examples.request_of GET (Some "u1") None None in
  Metadata.records (Metadata.metadata Examples.fresh !! "u1") = [] /\
  Metadata.api Examples.env req Examples.fresh = (Ok (Json VUndefined), Examples.fresh).
Proof.
  intros req. split; [reflexivity|].
  apply (C8_listing_without_records Examples.env req "u1" Examples.fresh);
    reflexivity.
Defined.

(** C8 as stated fails for a user who never stored anything: the read
    returns [undefined], not an empty sequence, and the listing is not the
    empty JSON array. *)
Lemma C8_no_collection_is_not_an_empty_array :
  let req := Examples.request_of GET (Some "u1") None None in
  Metadata.records (Metadata.metadata Examples.fresh !! "u1") = [] /\
  fst (Metadata.getServices (Some "u1") Examples.fresh) = Ok None /\
  fst (Metadata.getServices (Some "u1") Examples.fresh)
    <> Ok (Some (Metadata.Services [])) /\
  fst (Metadata.api Examples.env req Examples.fresh) = Ok (Json VUndefined) /\
  fst (Metadata.api Examples.env req Examples.fresh) <> Ok (Json (VArr [])).
Proof.
  intros req. split; [reflexivity|]. split; [reflexivity|].
  split; [discriminate|]. split; [reflexivity|discriminate].
Qed.

(** C9.  In the cache-backed variant the listing of user [A] has the entry
    parsed from every key of the cache that starts with [A].  So when the
    id of another user [B] starts with [A], every record of [B] is in the
    listing of [A]: all that [B] is shown is shown to [A] as well, and
    when neither [B] nor the type has an underscore, the entry is the
    record's own name and type. *)
Theorem C9_listing_by_prefix (env : environment) (reqA reqB : request)
    (cw : Cache.world) (A B : string) (n t : jsstring)
    (HgetA : req_method reqA = GET) (HsessionA : req_session reqA = Some A)
    (HgetB : req_method reqB = GET) (HsessionB : req_session reqB = Some B)
    (Hprefix : startsWith B A = true) (Hproper : A <> B)
    (Hrecord : is_Some (Cache.cache cw !! Cache.connectionName (Some B) n t)) :
  exists la lb,
    Cache.api env reqA cw = (Ok (Json (VArr la)), cw) /\
    Cache.api env reqB cw = (Ok (Json (VArr lb)), cw) /\
    (forall k, is_Some (Cache.cache cw !! k) -> startsWith k A = true ->
               Cache.connection k ∈ la) /\
    Cache.connection (Cache.connectionName (Some B) n t) ∈ la /\
    (forall o, o ∈ lb -> o ∈ la) /\
    (indexOf B "_" = -1 -> indexOf (ToString t) "_" = -1 ->
     VObj [("id", VStr (ToString n)); ("type", VStr (ToString t))] ∈ la).
Proof.
  rewrite (CacheFacts.cache_api_signed_in _ _ _ _ HsessionA), HgetA.
  rewrite (CacheFacts.cache_api_signed_in _ _ _ _ HsessionB), HgetB.
  assert (startsWith (Cache.connectionName (Some B) n t) A = true) as Hk.
  { apply (StringFacts.startsWith_trans _ B); [|done].
    apply StringFacts.startsWith_append. }
  exists (map Cache.connection (Cache.listed cw (Some A))),
         (map Cache.connection (Cache.listed cw (Some B))).
  split; [apply CacheFacts.get_api_listed|].
  split; [apply CacheFacts.get_api_listed|].
  split; [intros k Hin Hp; by apply (CacheFacts.is_listed cw (Some A))|].
  split; [by apply (CacheFacts.is_listed cw (Some A))|]. split.
  - intros o Ho. apply list_elem_of_fmap in Ho as (k & -> & Hin).
    apply CacheFacts.elem_of_listed in Hin as [Hin Hp].
    apply (CacheFacts.is_listed cw (Some A)); [done|].
    by apply (StringFacts.startsWith_trans _ B).
  - intros HB Ht.
    destruct (StringFacts.substring_name B (ToString n) (ToString t) HB Ht)
      as [Hn Hty].
    replace (VObj [("id", VStr (ToString n)); ("type", VStr (ToString t))])
      with (Cache.connection (Cache.connectionName (Some B) n t)).
    + by apply (CacheFacts.is_listed cw (Some A)).
    + unfold Cache.connection, Cache.connectionName.
      change (ToString (Some B)) with B. cbv zeta. by rewrite Hn, Hty.
Qed.

Lemma C9_listing_by_prefix_witness :
  let reqA := Examples.request_of GET (Some "u1") None None in
  startsWith "u12" "u1" = true /\
  exists la,
    Cache.api Examples.env reqA Examples.shared_cache
      = (Ok (Json (VArr la)), Examples.shared_cache) /\
    VObj [("id", VStr "Box"); ("type", VStr "Box")] ∈ la.
Proof.
  intros reqA. split; [reflexivity|].
  assert ("u1" <> "u12") as Hne by discriminate.
  assert (is_Some (Cache.cache Examples.shared_cache
                     !! Cache.connectionName (Some "u12") (Some "Box") (Some "Box")))
    as Hrec by (eexists; reflexivity).
  destruct (C9_listing_by_prefix Examples.env reqA
              (Examples.request_of GET (Some "u12") None None)
              Examples.shared_cache "u1" "u12" (Some "Box") (Some "Box")
              eq_refl eq_refl eq_refl eq_refl eq_refl Hne Hrec)
    as (la & lb & Ha & _ & _ & _ & _ & Hin).
  exists la. split; [exact Ha|]. apply Hin; reflexivity.
Defined.

(** ** Uniqueness of names *)

(** C2, as amended.  In the metadata-backed variant, registering a name
    that the user's collection already has throws and leaves the store as
    it was; registering a new name appends one record; and, run one after
    the other, [addService] and [editService] keep the names of a
    collection free of duplicates.  In the cache-backed variant the
    conflict is on the whole key: a [PUT /api/*] whose [userId_name_type]
    entry exists writes nothing, and one whose entry does not exist stores
    it. *)
Theorem C2_names_stay_unique (env : environment) (req : request)
    (w : Metadata.world) (cw : Cache.world)
    (u : string) (n t : jsstring) (d : value)
    (Hput : req_method req = PUT)
    (Hsession : req_session req = Some u)
    (H : NoDup (map Metadata.name (Metadata.records (Metadata.metadata w !! u)))) :
  let names w := map Metadata.name (Metadata.records (Metadata.metadata w !! u)) in
  let key := Cache.connectionName (Some u) (body_name req) (body_type req) in
  (n ∈ names w ->
   Metadata.addService (Some u) n t d w =
     (Throw (Thrown "Trying to add a service which already exists"), w)) /\
  (n ∉ names w ->
   exists w', Metadata.addService (Some u) n t d w = (Ok tt, w') /\
     Metadata.records (Metadata.metadata w' !! u) =
       Metadata.records (Metadata.metadata w !! u) ++ [Metadata.record n t d]) /\
  NoDup (names (snd (Metadata.addService (Some u) n t d w))) /\
  NoDup (names (snd (Metadata.editService (Some u) n d w))) /\
  (is_Some (Cache.cache cw !! key) ->
   Cache.api env req cw = (Ok NoReply, cw)) /\
  (Cache.cache cw !! key = None ->
   exists v, Cache.api env req cw =
     (Ok (Status 201),
      {| Cache.cache := <[key := v]> (Cache.cache cw);
         Cache.sets := (key, v) :: Cache.sets cw |})).
Proof.
  intros names key.
  rewrite (CacheFacts.cache_api_signed_in _ _ _ _ Hsession), Hput.
  assert (n ∈ names w ->
    Metadata.addService (Some u) n t d w =
      (Throw (Thrown "Trying to add a service which already exists"), w)) as Hhit.
  { unfold names. intros Hn.
    destruct (Metadata.metadata w !! u) as [[k|l]|] eqn:E; simpl in Hn;
      try (by apply elem_of_nil in Hn).
    by apply (MetadataFacts.addService_conflict _ _ _ _ _ l). }
  assert (n ∉ names w ->
    exists w', Metadata.addService (Some u) n t d w = (Ok tt, w') /\
      Metadata.records (Metadata.metadata w' !! u) =
        Metadata.records (Metadata.metadata w !! u) ++ [Metadata.record n t d]) as Hmiss.
  { unfold names. intros Hn.
    destruct (Metadata.metadata w !! u) as [[k|l]|] eqn:E; simpl in Hn.
    - rewrite (MetadataFacts.addService_corrupt _ _ _ _ _ _ E).
      eexists. split; [done|]. simpl. by rewrite lookup_insert_eq.
    - rewrite (MetadataFacts.addService_fresh_array _ _ _ _ _ _ E Hn).
      eexists. split; [done|]. simpl. by rewrite lookup_insert_eq.
    - rewrite (MetadataFacts.addService_absent _ _ _ _ _ E).
      eexists. split; [done|]. simpl. by rewrite lookup_insert_eq. }
  split; [exact Hhit|]. split; [exact Hmiss|]. split; [|split; [|split]].
  - destruct (decide (n ∈ names w)) as [Hn|Hn].
    + by rewrite (Hhit Hn).
    + destruct (Hmiss Hn) as (w' & -> & Hr). unfold names. simpl. rewrite Hr.
      rewrite map_app. simpl. apply NoDup_app. split; [done|]. split.
      * intros x Hx Hx'. apply list_elem_of_singleton in Hx'. by subst.
      * apply NoDup_singleton.
  - destruct (decide (n ∈ names w)) as [Hn|Hn].
    + unfold names in Hn.
      destruct (Metadata.metadata w !! u) as [[k|l]|] eqn:E; simpl in Hn;
        try (by apply elem_of_nil in Hn).
      destruct (MetadataFacts.first_named _ _ Hn) as (l1 & x & l2 & -> & Hx & Hl1).
      rewrite (MetadataFacts.editService_hit _ _ _ _ _ _ _ E Hl1 Hx).
      unfold names. simpl. rewrite lookup_insert_eq. simpl.
      simpl in H. by rewrite map_app in *.
    + destruct (MetadataFacts.editService_miss w u n d Hn) as (what & w' & -> & Hr & _).
      unfold names. simpl. by rewrite Hr.
  - intros [v Hv]. unfold Cache.put_api, bind, Cache.client_get. fold key.
    by rewrite Hv.
  - intros Hv. unfold Cache.put_api, bind, Cache.client_get. fold key.
    rewrite Hv. by eexists.
Qed.

Lemma C2_names_stay_unique_witness :
  let req := Examples.request_of PUT (Some "u1") (Some "Google Drive") (Some "GoogleDrive") in
  NoDup (map Metadata.name
           (Metadata.records (Metadata.metadata Examples.linked !! "u1"))) /\
  Metadata.addService (Some "u1") (Some "Box") (Some "Other") VNull Examples.linked =
    (Throw (Thrown "Trying to add a service which already exists"), Examples.linked) /\
  Cache.api Examples.env req Examples.one_cache = (Ok NoReply, Examples.one_cache).
Proof.
  intros req.
  assert (NoDup (map Metadata.name
           (Metadata.records (Metadata.metadata Examples.linked !! "u1")))) as H.
  { change (NoDup [Some "Box"; Some "Google Drive"]).
    apply NoDup_cons. split; [|apply NoDup_singleton].
    intros Hin. apply list_elem_of_singleton in Hin. discriminate Hin. }
  split; [exact H|].
  destruct (C2_names_stay_unique Examples.env req Examples.linked Examples.one_cache
              "u1" (Some "Box") (Some "Other") VNull eq_refl eq_refl H)
    as (Hhit & _ & _ & _ & Hkey & _).
  split.
  - apply Hhit. change (Some "Box" ∈ [Some "Box"; Some "Google Drive"]).
    apply list_elem_of_here.
  - apply Hkey. eexists. reflexivity.
Defined.

(** C2 as stated fails in the cache-backed variant: [u1] registers the name
    [Box] twice, under two types; both requests are answered 201 and the
    listing of [u1] then shows two records of that name. *)
Lemma C2_cache_same_name_twice :
  let first := Examples.request_of PUT (Some "u1") (Some "Box") (Some "Box") in
  let second := Examples.request_of PUT (Some "u1") (Some "Box") (Some "BoxV2") in
  let list := Examples.request_of GET (Some "u1") None None in
  let w1 := snd (Cache.api Examples.env first Examples.empty_cache) in
  let w2 := snd (Cache.api Examples.env second w1) in
  fst (Cache.api Examples.env first Examples.empty_cache) = Ok (Status 201) /\
  fst (Cache.api Examples.env second w1) = Ok (Status 201) /\
  fst (Cache.api Examples.env list w2) =
    Ok (Json (VArr [VObj [("id", VStr "Box"); ("type", VStr "BoxV2")];
                    VObj [("id", VStr "Box"); ("type", VStr "Box")]])).
Proof. repeat split; vm_compute; reflexivity. Qed.

(** ** The sign-in interceptor *)

(** C3, as amended.  When the wrapped completion succeeds for a user whose
    stored collection is not the number, the interceptor returns the
    completion's result as it got it and writes to the store exactly once.
    Metadata-backed: the write registers the record [Google Drive] at the
    end of the collection when no record of that name is there, and
    otherwise replaces the [data] of the first record of that name by the
    token-exchange response.  Cache-backed: the write sets the entry
    [id_Google Drive_GoogleDrive] to that response, new or not. *)
Theorem C3_sign_in_writes_once (env : environment)
    (original : signin_input -> completion) (input : signin_input)
    (response : signin_response) (id : string)
    (w : Metadata.world) (cw : Cache.world)
    (Hr : original {| clientId := GOOGLE_CLIENT_ID env; payload := payload input |}
          = Resolves response)
    (Hs : status response = "OK")
    (Hu : user response = Some id)
    (Hc : forall k, Metadata.metadata w !! id <> Some (Metadata.Corrupt k)) :
  let l := Metadata.records (Metadata.metadata w !! id) in
  let google := Some "Google Drive" in
  let key := (id ++ "_Google Drive_GoogleDrive")%string in
  let entry := Cache.object [("data", authCodeResponse response)] in
  (exists s,
     Metadata.thirdPartySignInUpPOST env (Some original) input w =
       (Ok response, Metadata.written w id (Metadata.Services s)) /\
     (((google ∉ map Metadata.name l) /\
       s = l ++ [Metadata.record google (Some "GoogleDrive") (authCodeResponse response)]) \/
      (exists l1 x l2,
         l = l1 ++ x :: l2 /\ Metadata.name x = google /\
         (google ∉ map Metadata.name l1) /\
         s = l1 ++ Metadata.set_service_data x (authCodeResponse response) :: l2))) /\
  Cache.thirdPartySignInUpPOST env (Some original) input cw =
    (Ok response,
     {| Cache.cache := <[key := entry]> (Cache.cache cw);
        Cache.sets := (key, entry) :: Cache.sets cw |}).
Proof.
  intros l google key entry. subst l google. split.
  - unfold Metadata.thirdPartySignInUpPOST. rewrite Hr, Hs, Hu. simpl.
    unfold bind at 1 2.
    destruct (Metadata.metadata w !! id) as [[k|l]|] eqn:E.
    + by destruct (Hc k).
    + rewrite (MetadataFacts.getServiceData_array _ _ _ _ E).
      destruct (decide (Some "Google Drive" ∈ map Metadata.name l)) as [Hn|Hn].
      * destruct (MetadataFacts.first_named _ _ Hn) as (l1 & x & l2 & -> & Hx & Hl1).
        rewrite (MetadataFacts.find_hit _ _ _ _ Hl1 Hx). simpl.
        rewrite (MetadataFacts.editService_hit _ _ _ _ _ _ _ E Hl1 Hx).
        eexists. split; [done|]. right. by exists l1, x, l2.
      * rewrite (MetadataFacts.find_miss _ _ Hn). simpl.
        rewrite (MetadataFacts.addService_fresh_array _ _ _ _ _ _ E Hn).
        eexists. split; [done|]. by left.
    + rewrite (MetadataFacts.getServiceData_absent _ _ _ E). simpl.
      rewrite (MetadataFacts.addService_absent _ _ _ _ _ E).
      eexists. split; [done|]. left. split; [apply not_elem_of_nil|done].
  - unfold Cache.thirdPartySignInUpPOST. rewrite Hr, Hs, Hu. reflexivity.
Qed.

Lemma C3_sign_in_writes_once_witness :
  (forall k, Metadata.metadata Examples.fresh !! "u1" <> Some (Metadata.Corrupt k)) /\
  Metadata.thirdPartySignInUpPOST Examples.env (Some Examples.signs_in)
    Examples.form Examples.fresh =
    (Ok {| status := "OK"; user := Some "u1"; authCodeResponse := Examples.fresh_token |},
     Metadata.written Examples.fresh "u1"
       (Metadata.Services
          [Metadata.record (Some "Google Drive") (Some "GoogleDrive")
             Examples.fresh_token])) /\
  Cache.sets
    (snd (Cache.thirdPartySignInUpPOST Examples.env (Some Examples.signs_in)
            Examples.form Examples.one_cache)) =
    [("u1_Google Drive_GoogleDrive", VObj [("data", Examples.fresh_token)])].
Proof.
  assert (forall k, Metadata.metadata Examples.fresh !! "u1"
                    <> Some (Metadata.Corrupt k)) as Hc by (intros k; discriminate).
  split; [exact Hc|].
  destruct (C3_sign_in_writes_once Examples.env Examples.signs_in Examples.form
              {| status := "OK"; user := Some "u1";
                 authCodeResponse := Examples.fresh_token |}
              "u1" Examples.fresh Examples.one_cache
              eq_refl eq_refl eq_refl Hc) as [_ Hcache].
  split; [reflexivity|]. rewrite Hcache. reflexivity.
Defined.

(** C3 as stated fails when the stored collection is the number: reading
    it resets it, which is a first write to the store, and registering the
    record is a second one.  (If the reset is overtaken by the read that
    follows it, the interceptor raises instead of returning the result.) *)
Lemma C3_repair_is_a_second_write :
  Metadata.writes Examples.broken = [] /\
  Metadata.thirdPartySignInUpPOST Examples.env (Some Examples.signs_in)
    Examples.form Examples.broken =
    (Ok {| status := "OK"; user := Some "u1"; authCodeResponse := Examples.fresh_token |},
     Metadata.written (Metadata.repaired Examples.broken "u1") "u1"
       (Metadata.Services
          [Metadata.record (Some "Google Drive") (Some "GoogleDrive")
             Examples.fresh_token])) /\
  length (Metadata.writes
            (snd (Metadata.thirdPartySignInUpPOST Examples.env
                    (Some Examples.signs_in) Examples.form Examples.broken))) = 2%nat /\
  length (Metadata.writes
            (snd (Metadata.thirdPartySignInUpPOST Examples.env
                    (Some Examples.signs_in) Examples.form Examples.broken))) <> 1%nat /\
  fst (Metadata.thirdPartySignInUpPOST Examples.env (Some Examples.signs_in)
         Examples.form Examples.broken_late) =
    Throw (TypeError "services.find is not a function").
Proof.
  split; [reflexivity|]. split; [reflexivity|]. split; [reflexivity|].
  split; [discriminate|reflexivity].
Qed.

(** ** The session gate in front of the routes *)

(** C4.  When the session is required and the request carries no valid
    session, every [/api/*] route, in either variant, answers with the
    unauthorized response of the gate and leaves the world exactly as it
    was: the handler does not run, so nothing is forwarded to the backend
    and nothing is written to the store. *)
Theorem C4_rejected_before_the_handler (env : environment) (req : request)
    (w : Metadata.world) (cw : Cache.world)
    (Hrequired : sessionRequired (DISABLE_AUTH env) = true)
    (Hsession : req_session req = None) :
  Metadata.api env req w = (Ok Unauthorized, w) /\
  Cache.api env req cw = (Ok Unauthorized, cw).
Proof.
  unfold Metadata.api, Cache.api, guarded, verifySession.
  rewrite Hrequired, Hsession. by destruct (req_method req).
Qed.

Lemma C4_rejected_before_the_handler_witness :
  let req := Examples.request_of POST None (Some "Google Drive") (Some "GoogleDrive") in
  sessionRequired (DISABLE_AUTH Examples.env) = true /\
  req_session req = None /\
  Metadata.api Examples.env req Examples.linked = (Ok Unauthorized, Examples.linked) /\
  Cache.api Examples.env req Examples.shared_cache = (Ok Unauthorized, Examples.shared_cache).
Proof.
  intros req. split; [reflexivity|]. split; [reflexivity|].
  exact (C4_rejected_before_the_handler Examples.env req Examples.linked
           Examples.shared_cache eq_refl eq_refl).
Defined.

(** ** A provider that is not the caller's *)




(** ** Reading, repairing and updating the collection *)




(** C7.  When the collection has a record named [n], [editService]
    succeeds with one write that replaces the [data] of the first such
    record (the only one, when names are unique) and nothing else: its
    [name] and [type], every other record and the order of the collection
    are as before.  When no record is named [n], [editService] fails, with
    the [TypeError] of the assignment through a missing record, and the
    records of the user are as before (the store itself is untouched
    unless the collection was the number). *)
Theorem C7_update_replaces_only_data (w : Metadata.world) (u : string)
    (n : jsstring) (d : value) :
  (forall l1 x l2,
     Metadata.metadata w !! u = Some (Metadata.Services (l1 ++ x :: l2)) ->
     Metadata.name x = n -> n ∉ map Metadata.name l1 ->
     Metadata.editService (Some u) n d w =
       (Ok tt,
        Metadata.written w u
          (Metadata.Services (l1 ++ Metadata.set_service_data x d :: l2))) /\
     Metadata.name (Metadata.set_service_data x d) = Metadata.name x /\
     Metadata.type (Metadata.set_service_data x d) = Metadata.type x /\
     Metadata.data (Metadata.set_service_data x d) = d) /\
  (n ∉ map Metadata.name (Metadata.records (Metadata.metadata w !! u)) ->
   exists what w',
     Metadata.editService (Some u) n d w = (Throw (TypeError what), w') /\
     Metadata.records (Metadata.metadata w' !! u)
       = Metadata.records (Metadata.metadata w !! u) /\
     ((forall k, Metadata.metadata w !! u <> Some (Metadata.Corrupt k)) -> w' = w)).
Proof.
  split.
  - intros l1 x l2 H Hx Hl1. split; [|done].
    by apply MetadataFacts.editService_hit.
  - apply MetadataFacts.editService_miss.
Qed.

Lemma C7_update_replaces_only_data_witness :
  Metadata.editService (Some "u1") (Some "Google Drive") Examples.fresh_token
    Examples.linked =
    (Ok tt,
     Metadata.written Examples.linked "u1"
       (Metadata.Services
          [Examples.box;
           Metadata.record (Some "Google Drive") (Some "GoogleDrive")
             Examples.fresh_token])) /\
  exists what,
    Metadata.editService (Some "u1") (Some "Dropbox") Examples.fresh_token
      Examples.linked = (Throw (TypeError what), Examples.linked).
Proof.
  split.
  - apply (C7_update_replaces_only_data Examples.linked "u1" (Some "Google Drive")
             Examples.fresh_token) with (l1 := [Examples.box]) (x := Examples.drive)
             (l2 := []).
    + reflexivity.
    + reflexivity.
    + change (Some "Google Drive" ∉ [Some "Box"]). intros Hin.
      apply list_elem_of_singleton in Hin. discriminate Hin.
  - destruct (C7_update_replaces_only_data Examples.linked "u1" (Some "Dropbox")
                Examples.fresh_token) as [_ Hmiss].
    destruct Hmiss as (what & w' & H1 & _ & H2).
    + change (Some "Dropbox" ∉ [Some "Box"; Some "Google Drive"]). intros Hin.
      apply elem_of_cons in Hin as [Hin|Hin]; [discriminate Hin|].
      apply list_elem_of_singleton in Hin. discriminate Hin.
    + exists what. rewrite H1. f_equal. apply H2. intros k Hk.
      vm_compute in Hk. discriminate Hk.
Defined.

(** ** Registering through the route *)

(** C10.  In the metadata-backed variant the [PUT /api/*] handler evaluates
    the identifier [userId], which neither the handler nor the module
    binds; the handler therefore raises a [ReferenceError] before
    [addService] is called.  Whatever the request and the session, the
    route leaves the store exactly as it was: nothing is ever registered
    through it. *)
Theorem C10_put_never_registers (env : environment) (req : request)
    (w : Metadata.world) (Hput : req_method req = PUT) :
  Metadata.assoc "userId" Metadata.module_scope = None /\
  (forall session,
     Metadata.put_api req session w = (Throw (ReferenceError "userId"), w)) /\
  exists r,
    Metadata.api env req w = (r, w) /\
    (r = Ok Unauthorized \/ r = Throw (ReferenceError "userId")).
Proof.
  split; [reflexivity|]. split; [reflexivity|].
  unfold Metadata.api, guarded. rewrite Hput.
  destruct (verifySession _ _); eauto.
Qed.

Lemma C10_put_never_registers_witness :
  let req := Examples.request_of PUT (Some "u1") (Some "Dropbox") (Some "Dropbox") in
  req_method req = PUT /\
  Metadata.api Examples.env req Examples.linked
    = (Throw (ReferenceError "userId"), Examples.linked).
Proof.
  intros req. split; [reflexivity|].
  destruct (C10_put_never_registers Examples.env req Examples.linked eq_refl)
    as (_ & _ & r & Hr & Hcases).
  rewrite Hr. f_equal. destruct Hcases as [->| ->]; [|reflexivity].
  vm_compute in Hr. discriminate Hr.
Defined.

(** * Properties of the outbound headers *)

Module HeaderFacts.

Section Proxy.

Context {St : Type}.

Variables (target : jsstring) (user : string) (credentials : value).

(** Forwarding, or failing to, changes nothing in the store. *)
Lemma proxy_web_state (w : St) : snd (proxy_web target user credentials w) = w.
Proof.
  unfold proxy_web. destruct target; [|done].
  destruct (JSON_stringify credentials); [|done].
  by destruct (valid_header_value user && valid_header_value _).
Qed.

(** What was forwarded, when something was. *)
Lemma proxy_web_inv (w w' : St) (r : response) :
  proxy_web target user credentials w = (Ok r, w') ->
  exists t,
    target = Some t /\ r = ProxyWeb t user credentials /\ w' = w /\
    valid_header_value user = true /\ is_Some (header_value credentials).
Proof.
  unfold proxy_web, header_value. destruct target as [t|]; [|done].
  destruct (JSON_stringify credentials) as [text|]; [|done].
  destruct (valid_header_value user) eqn:Hu; [|done].
  destruct (valid_header_value text) eqn:Ht; [|done].
  simpl. intros [= <- <-]. exists t. by repeat split.
Qed.

Lemma proxy_web_ok (t : string) (w : St) :
  target = Some t -> valid_header_value user = true ->
  is_Some (header_value credentials) ->
  proxy_web target user credentials w = (Ok (ProxyWeb t user credentials), w).
Proof.
  intros -> Hu [text Ht]. unfold proxy_web, header_value in *.
  destruct (JSON_stringify credentials) as [text'|]; [|done].
  destruct (valid_header_value text'); [|done]. by rewrite Hu.
Qed.

Lemma proxy_web_refused (w : St) :
  header_value credentials = None \/ valid_header_value user = false ->
  exists e, proxy_web target user credentials w = (Throw e, w).
Proof.
  unfold proxy_web, header_value. intros H. destruct target; [|by eexists].
  destruct (JSON_stringify credentials) as [text|]; [|by eexists].
  destruct (valid_header_value user); simpl.
  - destruct (valid_header_value text); [|by eexists]. by destruct H.
  - by eexists.
Qed.

End Proxy.

End HeaderFacts.

(** * Further properties *)

Module MoreMetadataFacts.
Import Metadata.

(** The first record named [n] of a collection, split off. *)
Lemma find_named_inv (n : jsstring) (l : list service) (x : service) :
  find (named n) l = Some x ->
  exists l1 l2, l = l1 ++ x :: l2 /\ name x = n /\ n ∉ map name l1.
Proof.
  induction l as [|y l IH]; simpl; [done|]. unfold named at 1.
  destruct (loose_eq (name y) n) eqn:E.
  - intros [= ->]. apply MetadataFacts.loose_eq_true in E.
    exists [], l. repeat split; [done|]. simpl. apply not_elem_of_nil.
  - intros H. destruct (IH H) as (l1 & l2 & -> & Hx & Hl1).
    exists (y :: l1), l2. repeat split; [done|]. simpl.
    apply not_elem_of_cons. split; [|done].
    apply MetadataFacts.loose_eq_false in E. congruence.
Qed.

(** What [addService] leaves behind when it succeeds. *)
Lemma addService_ok_inv (w w1 : world) (u : string) (n t : jsstring) (d : value) :
  addService (Some u) n t d w = (Ok tt, w1) ->
  (n ∉ map name (records (metadata w !! u))) /\
  metadata w1 !! u
    = Some (Services (records (metadata w !! u) ++ [record n t d])) /\
  (forall v, v <> u -> metadata w1 !! v = metadata w !! v).
Proof.
  destruct (metadata w !! u) as [[k|l]|] eqn:E; simpl.
  - rewrite (MetadataFacts.addService_corrupt _ _ _ _ _ _ E). intros [= <-].
    split; [apply not_elem_of_nil|]. split; [apply lookup_insert_eq|].
    intros v Hv. simpl. by rewrite !lookup_insert_ne.
  - destruct (decide (n ∈ map name l)) as [Hn|Hn].
    + by rewrite (MetadataFacts.addService_conflict _ _ _ _ _ _ E Hn).
    + rewrite (MetadataFacts.addService_fresh_array _ _ _ _ _ _ E Hn).
      intros [= <-]. split; [done|]. split; [apply lookup_insert_eq|].
      intros v Hv. simpl. by rewrite lookup_insert_ne.
  - rewrite (MetadataFacts.addService_absent _ _ _ _ _ E). intros [= <-].
    split; [apply not_elem_of_nil|]. split; [apply lookup_insert_eq|].
    intros v Hv. simpl. by rewrite lookup_insert_ne.
Qed.

(** What [editService] found when it succeeds. *)
Lemma editService_ok_inv (w w1 : world) (u : string) (n : jsstring) (d : value) :
  editService (Some u) n d w = (Ok tt, w1) ->
  exists l1 x l2,
    metadata w !! u = Some (Services (l1 ++ x :: l2)) /\
    name x = n /\ (n ∉ map name l1) /\
    w1 = written w u (Services (l1 ++ set_service_data x d :: l2)).
Proof.
  intros H.
  destruct (decide (n ∈ map name (records (metadata w !! u)))) as [Hn|Hn].
  - destruct (metadata w !! u) as [[k|l]|] eqn:E; simpl in Hn;
      try (by apply elem_of_nil in Hn).
    destruct (MetadataFacts.first_named _ _ Hn) as (l1 & x & l2 & -> & Hx & Hl1).
    rewrite (MetadataFacts.editService_hit _ _ _ _ _ _ _ E Hl1 Hx) in H.
    injection H as <-. by exists l1, x, l2.
  - destruct (MetadataFacts.editService_miss w u n d Hn) as (what & w' & H' & _).
    rewrite H' in H. discriminate H.
Qed.

(** The catch-all handler when the record is there. *)
Lemma all_api_found (env : environment) (req : request) (u : string) (w : world)
    (l1 l2 : list service) (x : service) :
  metadata w !! u = Some (Services (l1 ++ x :: l2)) ->
  name x = provider_id req -> provider_id req ∉ map name l1 ->
  all_api env req (Some u) w =
    try_catch (proxy_web (JONCTIONFS_URI env) (or_else (Some u) "My-username") (data x))
      (fun _ => ret (Status 500)) w.
Proof.
  intros E Hx Hl1. unfold all_api, try_catch, bind.
  rewrite (MetadataFacts.getServiceData_array _ _ _ _ E).
  by rewrite (MetadataFacts.find_hit _ _ _ _ Hl1 Hx).
Qed.

(** What a successful sign-in leaves in a collection that is not the
    number. *)
Lemma sign_in_stores (env : environment) (original : signin_input -> completion)
    (input : signin_input) (response : signin_response) (id : string) (w : world) :
  original {| clientId := GOOGLE_CLIENT_ID env; payload := payload input |}
    = Resolves response ->
  status response = "OK" -> user response = Some id ->
  (forall k, metadata w !! id <> Some (Corrupt k)) ->
  exists w1 l1 x l2,
    thirdPartySignInUpPOST env (Some original) input w = (Ok response, w1) /\
    metadata w1 !! id = Some (Services (l1 ++ x :: l2)) /\
    name x = Some "Google Drive" /\ (Some "Google Drive" ∉ map name l1) /\
    data x = authCodeResponse response /\
    length (l1 ++ x :: l2)
      = (if decide (Some "Google Drive" ∈ map name (records (metadata w !! id)))
         then length (records (metadata w !! id))
         else S (length (records (metadata w !! id)))).
Proof.
  intros Hr Hs Hu Hc. unfold thirdPartySignInUpPOST. rewrite Hr, Hs, Hu. simpl.
  unfold bind at 1 2.
  destruct (metadata w !! id) as [[k|l]|] eqn:E; simpl.
  - by destruct (Hc k).
  - rewrite (MetadataFacts.getServiceData_array _ _ _ _ E).
    destruct (decide (Some "Google Drive" ∈ map name l)) as [Hn|Hn].
    + destruct (MetadataFacts.first_named _ _ Hn) as (l1 & x & l2 & -> & Hx & Hl1).
      rewrite (MetadataFacts.find_hit _ _ _ _ Hl1 Hx). simpl.
      rewrite (MetadataFacts.editService_hit _ _ _ _ _ _ _ E Hl1 Hx).
      eexists _, l1, (set_service_data x (authCodeResponse response)), l2.
      split; [done|]. split; [apply lookup_insert_eq|]. repeat split; try done.
      by rewrite !length_app.
    + rewrite (MetadataFacts.find_miss _ _ Hn). simpl.
      rewrite (MetadataFacts.addService_fresh_array _ _ _ _ _ _ E Hn).
      eexists _, l, _, []. split; [done|]. split; [apply lookup_insert_eq|].
      repeat split; try done. rewrite length_app. simpl. lia.
  - rewrite (MetadataFacts.getServiceData_absent _ _ _ E). simpl.
    rewrite (MetadataFacts.addService_absent _ _ _ _ _ E).
    eexists _, [], _, []. split; [done|]. split; [apply lookup_insert_eq|].
    repeat split; try done. apply not_elem_of_nil.
Qed.

End MoreMetadataFacts.

(** * Frames *)

Module FrameFacts.
Import Metadata Frame.

Create HintDb frame.

Section Spares.

Variable v : string.

Lemma spares_ret {A} (a : A) : spares v (ret a).
Proof. by intros w. Qed.

Lemma spares_throw {A} (e : exn) : spares v (throw (A := A) e).
Proof. by intros w. Qed.

Lemma spares_bind {A B} (m : M world A) (k : A -> M world B) :
  spares v m -> (forall a, spares v (k a)) -> spares v (bind m k).
Proof.
  intros Hm Hk w. unfold bind. specialize (Hm w).
  destruct (m w) as [[a|e] w1]; simpl in *; [|done].
  by rewrite (Hk a w1).
Qed.

Lemma spares_try_catch {A} (m : M world A) (h : exn -> M world A) :
  spares v m -> (forall e, spares v (h e)) -> spares v (try_catch m h).
Proof.
  intros Hm Hh w. unfold try_catch. specialize (Hm w).
  destruct (m w) as [[a|e] w1]; simpl in *; [done|].
  by rewrite (Hh e w1).
Qed.

Lemma spares_getUserMetadata (userId : jsstring) : spares v (getUserMetadata userId).
Proof. intros w. unfold getUserMetadata. by destruct userId. Qed.

Lemma spares_delivered_first : spares v delivered_first.
Proof. intros w. unfold delivered_first. by destruct (tape w). Qed.

Lemma spares_updateUserMetadata (userId : jsstring) (s : stored) :
  userId <> Some v -> spares v (updateUserMetadata userId s).
Proof.
  intros Hne w. unfold updateUserMetadata. destruct userId as [u|]; [|done].
  simpl. apply lookup_insert_ne. congruence.
Qed.

Hint Resolve spares_ret spares_throw spares_getUserMetadata
  spares_delivered_first spares_updateUserMetadata : frame.

Lemma spares_getServices (userId : jsstring) :
  userId <> Some v -> spares v (getServices userId).
Proof.
  intros Hne. unfold getServices. apply spares_bind; [auto with frame|].
  intros [[k|l]|]; [|auto with frame..].
  apply spares_bind; [auto with frame|]. intros [|].
  - apply spares_bind; auto with frame.
  - apply spares_bind; [auto with frame|]. intros stale.
    apply spares_bind; auto with frame.
Qed.

Lemma spares_getServiceData (userId n : jsstring) :
  userId <> Some v -> spares v (getServiceData userId n).
Proof.
  intros Hne. unfold getServiceData.
  apply spares_bind; [by apply spares_getServices|].
  intros [[k|l]|]; [destruct (k =? 0)|..]; auto with frame.
Qed.

Lemma spares_addService (userId n t : jsstring) (d : value) :
  userId <> Some v -> spares v (addService userId n t d).
Proof.
  intros Hne. unfold addService.
  apply spares_bind; [by apply spares_getServices|]. intros services.
  apply spares_bind; [by apply spares_getServiceData|]. intros existing.
  destruct (truthy existing); auto with frame.
Qed.

Lemma spares_editService (userId n : jsstring) (d : value) :
  userId <> Some v -> spares v (editService userId n d).
Proof.
  intros Hne. unfold editService.
  apply spares_bind; [by apply spares_getServices|].
  intros [[k|l]|]; [auto with frame| |auto with frame].
  destruct (if findIndex n l <? 0 then None else l !! Z.to_nat (findIndex n l));
    auto with frame.
Qed.

Lemma spares_thirdPartySignInUpPOST (env : environment)
    (original : option (signin_input -> completion)) (input : signin_input) :
  (forall f response,
     original = Some f ->
     f {| clientId := GOOGLE_CLIENT_ID env; payload := payload input |}
       = Resolves response ->
     user response <> Some v) ->
  spares v (thirdPartySignInUpPOST env original input).
Proof.
  intros Hother. unfold thirdPartySignInUpPOST.
  destruct original as [f|]; [|auto with frame].
  destruct (f _) as [response|e] eqn:E; [|auto with frame].
  specialize (Hother f response eq_refl E).
  apply spares_bind; [|auto with frame].
  destruct (String.eqb (status response) "OK"); [|auto with frame].
  destruct (user response) as [id|]; [|auto with frame].
  apply spares_bind; [by apply spares_getServiceData|]. intros g.
  destruct (truthy g); [by apply spares_editService|by apply spares_addService].
Qed.

End Spares.

Section KeepsRecords.

Lemma keeps_ret {A} (a : A) : keeps_records (ret a).
Proof. by intros w v. Qed.

Lemma keeps_throw {A} (e : exn) : keeps_records (throw (A := A) e).
Proof. by intros w v. Qed.

Lemma keeps_bind {A B} (m : M world A) (k : A -> M world B) :
  keeps_records m -> (forall a, keeps_records (k a)) -> keeps_records (bind m k).
Proof.
  intros Hm Hk w v. unfold bind. specialize (Hm w v).
  destruct (m w) as [[a|e] w1]; simpl in *; [|done].
  by rewrite (Hk a w1 v).
Qed.

Lemma keeps_try_catch {A} (m : M world A) (h : exn -> M world A) :
  keeps_records m -> (forall e, keeps_records (h e)) ->
  keeps_records (try_catch m h).
Proof.
  intros Hm Hh w v. unfold try_catch. specialize (Hm w v).
  destruct (m w) as [[a|e] w1]; simpl in *; [done|].
  by rewrite (Hh e w1 v).
Qed.

Lemma keeps_getServices (userId : jsstring) : keeps_records (getServices userId).
Proof.
  intros w v. destruct userId as [u|]; [|done].
  destruct (metadata w !! u) as [[k|l]|] eqn:E.
  - rewrite (MetadataFacts.getServices_corrupt _ _ _ E). simpl.
    destruct (decide (u = v)) as [->|Hne].
    + by rewrite lookup_insert_eq, E.
    + by rewrite lookup_insert_ne.
  - by rewrite (MetadataFacts.getServices_array _ _ _ E).
  - by rewrite (MetadataFacts.getServices_absent _ _ E).
Qed.

Lemma keeps_getServiceData (userId n : jsstring) :
  keeps_records (getServiceData userId n).
Proof.
  unfold getServiceData. apply keeps_bind; [apply keeps_getServices|].
  intros [[k|l]|]; [destruct (k =? 0)|..];
    auto using keeps_ret, keeps_throw.
Qed.

Lemma keeps_guarded (disable session : jsstring)
    (handler : jsstring -> M world response) :
  (forall userId, keeps_records (handler userId)) ->
  keeps_records (guarded disable session handler).
Proof.
  intros H. unfold guarded. destruct (verifySession _ _); [apply keeps_ret|apply H].
Qed.

Lemma keeps_api (env : environment) (req : request) : keeps_records (api env req).
Proof.
  unfold api.
  assert (forall userId, keeps_records (get_api userId)) as Hget.
  { intros userId. unfold get_api. apply keeps_bind; [apply keeps_getServices|].
    intros services. apply keeps_bind; [|intros; apply keeps_ret].
    destruct services as [[k|l]|]; auto using keeps_ret, keeps_throw. }
  assert (forall userId, keeps_records (put_api req userId)) as Hput.
  { intros userId w v. reflexivity. }
  assert (forall userId, keeps_records (all_api env req userId)) as Hall.
  { intros userId. unfold all_api. apply keeps_try_catch; [|intros; apply keeps_ret].
    apply keeps_bind; [apply keeps_getServiceData|]. intros [| |x];
      [apply keeps_throw..|].
    intros w v. by rewrite HeaderFacts.proxy_web_state. }
  destruct (req_method req); by apply keeps_guarded.
Qed.

End KeepsRecords.

Section ReadOnly.

Lemma read_only_bind {A B} (m : M world A) (k : A -> M world B) :
  read_only m -> (forall a, read_only (k a)) -> read_only (bind m k).
Proof.
  intros Hm Hk w Hw. unfold bind. specialize (Hm w Hw).
  destruct (m w) as [[a|e] w1]; simpl in *; subst w1; [|done].
  by apply Hk.
Qed.

Lemma read_only_try_catch {A} (m : M world A) (h : exn -> M world A) :
  read_only m -> (forall e, read_only (h e)) -> read_only (try_catch m h).
Proof.
  intros Hm Hh w Hw. unfold try_catch. specialize (Hm w Hw).
  destruct (m w) as [[a|e] w1]; simpl in *; subst w1; [done|].
  by apply Hh.
Qed.

Lemma read_only_getServices (userId : jsstring) : read_only (getServices userId).
Proof.
  intros w Hw. destruct userId as [u|]; [|done].
  by rewrite (MetadataFacts.getServices_not_corrupt w u (Hw u)).
Qed.

Lemma read_only_getServiceData (userId n : jsstring) :
  read_only (getServiceData userId n).
Proof.
  unfold getServiceData. apply read_only_bind; [apply read_only_getServices|].
  intros [[k|l]|]; [destruct (k =? 0)|..]; by intros w Hw.
Qed.

Lemma read_only_api (env : environment) (req : request) : read_only (api env req).
Proof.
  assert (forall userId, read_only (get_api userId)) as Hget.
  { intros userId. unfold get_api. apply read_only_bind; [apply read_only_getServices|].
    intros services. apply read_only_bind; [|by intros a w Hw].
    destruct services as [[k|l]|]; by intros w Hw. }
  assert (forall userId, read_only (put_api req userId)) as Hput.
  { by intros userId w Hw. }
  assert (forall userId, read_only (all_api env req userId)) as Hall.
  { intros userId. unfold all_api.
    apply read_only_try_catch; [|by intros e w Hw].
    apply read_only_bind; [apply read_only_getServiceData|].
    intros [| |x]; [by intros w Hw..|].
    intros w Hw. apply HeaderFacts.proxy_web_state. }
  unfold api, guarded.
  destruct (req_method req); destruct (verifySession _ _); auto; by intros w Hw.
Qed.

End ReadOnly.

End FrameFacts.

(** * Further properties of the credential store *)

(** X1.  Registering a name that the collection does not have succeeds,
    whatever the shape of the stored collection; looking the name up then
    finds exactly the record that was registered, and the listing shows the
    old records followed by the new one. *)
Theorem X1_register_then_lookup (w : Metadata.world) (u : string)
    (n t : jsstring) (d : value)
    (Hfresh : n ∉ map Metadata.name (Metadata.records (Metadata.metadata w !! u))) :
  exists w1,
    Metadata.addService (Some u) n t d w = (Ok tt, w1) /\
    Metadata.getServiceData (Some u) n w1
      = (Ok (Metadata.Found (Metadata.record n t d)), w1) /\
    Metadata.get_api (Some u) w1 =
      (Ok (Json (VArr (map Metadata.name_and_type
                         (Metadata.records (Metadata.metadata w !! u))
                       ++ [Metadata.name_and_type (Metadata.record n t d)]))), w1).
Proof.
  assert (exists w1, Metadata.addService (Some u) n t d w = (Ok tt, w1)) as [w1 H1].
  { destruct (Metadata.metadata w !! u) as [[k|l]|] eqn:E; simpl in Hfresh.
    - rewrite (MetadataFacts.addService_corrupt _ _ _ _ _ _ E). eauto.
    - rewrite (MetadataFacts.addService_fresh_array _ _ _ _ _ _ E Hfresh). eauto.
    - rewrite (MetadataFacts.addService_absent _ _ _ _ _ E). eauto. }
  exists w1. split; [exact H1|].
  destruct (MoreMetadataFacts.addService_ok_inv _ _ _ _ _ _ H1) as (_ & E1 & _).
  split.
  - rewrite (MetadataFacts.getServiceData_array _ _ _ _ E1).
    by rewrite (MetadataFacts.find_hit n _ [] (Metadata.record n t d) Hfresh).
  - unfold Metadata.get_api, bind.
    rewrite (MetadataFacts.getServices_array _ _ _ E1). simpl.
    by rewrite map_app.
Qed.

Lemma X1_register_then_lookup_witness :
  exists w1,
    Metadata.addService (Some "u1") (Some "Dropbox") (Some "Dropbox") VNull
      Examples.linked = (Ok tt, w1) /\
    Metadata.getServiceData (Some "u1") (Some "Dropbox") w1
      = (Ok (Metadata.Found (Metadata.record (Some "Dropbox") (Some "Dropbox") VNull)), w1).
Proof.
  destruct (X1_register_then_lookup Examples.linked "u1" (Some "Dropbox")
              (Some "Dropbox") VNull) as (w1 & H1 & H2 & _).
  - change (Some "Dropbox" ∉ [Some "Box"; Some "Google Drive"]). intros Hin.
    apply elem_of_cons in Hin as [Hin|Hin]; [discriminate Hin|].
    apply list_elem_of_singleton in Hin. discriminate Hin.
  - exists w1. split; [exact H1|exact H2].
Defined.

(** X2.  Once a name has been registered, registering it again, with
    whatever type and data, throws the conflict and leaves the store as
    the first registration left it. *)
Theorem X2_register_twice_conflicts (w w1 : Metadata.world) (u : string)
    (n t t' : jsstring) (d d' : value)
    (Hfirst : Metadata.addService (Some u) n t d w = (Ok tt, w1)) :
  Metadata.addService (Some u) n t' d' w1 =
    (Throw (Thrown "Trying to add a service which already exists"), w1).
Proof.
  destruct (MoreMetadataFacts.addService_ok_inv _ _ _ _ _ _ Hfirst) as (_ & E1 & _).
  apply (MetadataFacts.addService_conflict _ _ _ _ _ _ E1).
  rewrite map_app. apply elem_of_app. right. simpl. apply list_elem_of_here.
Qed.

Lemma X2_register_twice_conflicts_witness :
  let w1 := Metadata.written Examples.fresh "u1"
              (Metadata.Services [Metadata.record (Some "Box") (Some "Box") VNull]) in
  Metadata.addService (Some "u1") (Some "Box") (Some "Box") VNull Examples.fresh
    = (Ok tt, w1) /\
  Metadata.addService (Some "u1") (Some "Box") (Some "BoxV2") (VStr "other") w1 =
    (Throw (Thrown "Trying to add a service which already exists"), w1).
Proof.
  intros w1. split; [reflexivity|].
  apply (X2_register_twice_conflicts Examples.fresh w1 "u1" (Some "Box") (Some "Box")
           (Some "BoxV2") VNull (VStr "other")).
  reflexivity.
Defined.

(** X3.  After a successful update of the record named [n], looking [n]
    up finds a record with the new data and with the name and type of the
    record that was found before; updating again with the same data
    succeeds and stores the same collection once more. *)
Theorem X3_update_then_lookup (w w1 : Metadata.world) (u : string)
    (n : jsstring) (d : value)
    (Hedit : Metadata.editService (Some u) n d w = (Ok tt, w1)) :
  exists x,
    Metadata.getServiceData (Some u) n w = (Ok (Metadata.Found x), w) /\
    Metadata.getServiceData (Some u) n w1
      = (Ok (Metadata.Found (Metadata.set_service_data x d)), w1) /\
    exists w2,
      Metadata.editService (Some u) n d w1 = (Ok tt, w2) /\
      Metadata.metadata w2 = Metadata.metadata w1.
Proof.
  destruct (MoreMetadataFacts.editService_ok_inv _ _ _ _ _ Hedit)
    as (l1 & x & l2 & E & Hx & Hl1 & ->).
  exists x. split; [|split].
  - rewrite (MetadataFacts.getServiceData_array _ _ _ _ E).
    by rewrite (MetadataFacts.find_hit _ _ _ _ Hl1 Hx).
  - assert (Metadata.metadata (Metadata.written w u
              (Metadata.Services (l1 ++ Metadata.set_service_data x d :: l2))) !! u
            = Some (Metadata.Services (l1 ++ Metadata.set_service_data x d :: l2)))
      as E1 by apply lookup_insert_eq.
    rewrite (MetadataFacts.getServiceData_array _ _ _ _ E1).
    by rewrite (MetadataFacts.find_hit n l1 l2 (Metadata.set_service_data x d) Hl1 Hx).
  - eexists. split.
    + apply (MetadataFacts.editService_hit _ _ _ _ l1 l2 (Metadata.set_service_data x d));
        [apply lookup_insert_eq|done|done].
    + simpl. apply insert_insert_eq.
Qed.

Lemma X3_update_then_lookup_witness :
  let w1 := Metadata.written Examples.linked "u1"
              (Metadata.Services
                 [Examples.box;
                  Metadata.set_service_data Examples.drive Examples.fresh_token]) in
  Metadata.editService (Some "u1") (Some "Google Drive") Examples.fresh_token
    Examples.linked = (Ok tt, w1) /\
  exists x,
    Metadata.getServiceData (Some "u1") (Some "Google Drive") w1
      = (Ok (Metadata.Found (Metadata.set_service_data x Examples.fresh_token)), w1).
Proof.
  intros w1. split; [reflexivity|].
  destruct (X3_update_then_lookup Examples.linked w1 "u1" (Some "Google Drive")
              Examples.fresh_token eq_refl) as (x & _ & H & _).
  exists x. exact H.
Defined.

(** X4.  On a collection that is not the number, an update succeeds
    exactly when a lookup of the same name finds a record: [findIndex] and
    [find] agree. *)
Theorem X4_update_succeeds_iff_found (w : Metadata.world) (u : string)
    (n : jsstring) (d : value)
    (Hhealthy : forall k, Metadata.metadata w !! u <> Some (Metadata.Corrupt k)) :
  (exists x, Metadata.getServiceData (Some u) n w = (Ok (Metadata.Found x), w)) <->
  (exists w1, Metadata.editService (Some u) n d w = (Ok tt, w1)).
Proof.
  split.
  - intros [x Hx].
    destruct (Metadata.metadata w !! u) as [[k|l]|] eqn:E.
    + by destruct (Hhealthy k).
    + rewrite (MetadataFacts.getServiceData_array _ _ _ _ E) in Hx.
      destruct (find (Metadata.named n) l) as [y|] eqn:F; [|discriminate Hx].
      destruct (MoreMetadataFacts.find_named_inv _ _ _ F) as (l1 & l2 & -> & Hy & Hl1).
      rewrite (MetadataFacts.editService_hit _ _ _ _ _ _ _ E Hl1 Hy). eauto.
    + rewrite (MetadataFacts.getServiceData_absent _ _ _ E) in Hx. discriminate Hx.
  - intros [w1 H1].
    destruct (MoreMetadataFacts.editService_ok_inv _ _ _ _ _ H1)
      as (l1 & x & l2 & E & Hx & Hl1 & _).
    exists x. rewrite (MetadataFacts.getServiceData_array _ _ _ _ E).
    by rewrite (MetadataFacts.find_hit _ _ _ _ Hl1 Hx).
Qed.

Lemma X4_update_succeeds_iff_found_witness :
  exists w1,
    Metadata.editService (Some "u1") (Some "Box") VNull Examples.linked = (Ok tt, w1).
Proof.
  apply (X4_update_succeeds_iff_found Examples.linked "u1" (Some "Box") VNull).
  - intros k Hk. vm_compute in Hk. discriminate Hk.
  - exists Examples.box. reflexivity.
Defined.

(** X5.  Reading, registering and updating for one user, and a sign-in of
    one user, leave the stored collection of every other user as it was,
    whether they succeed or throw. *)
Theorem X5_other_users_untouched (env : environment)
    (original : signin_input -> completion) (input : signin_input)
    (response : signin_response)
    (w : Metadata.world) (u v : string) (n t : jsstring) (d : value)
    (Hother : v <> u)
    (Hsigned : original {| clientId := GOOGLE_CLIENT_ID env; payload := payload input |}
               = Resolves response)
    (Huser : user response = Some u) :
  Metadata.metadata (snd (Metadata.getServiceData (Some u) n w)) !! v
    = Metadata.metadata w !! v /\
  Metadata.metadata (snd (Metadata.addService (Some u) n t d w)) !! v
    = Metadata.metadata w !! v /\
  Metadata.metadata (snd (Metadata.editService (Some u) n d w)) !! v
    = Metadata.metadata w !! v /\
  Metadata.metadata
    (snd (Metadata.thirdPartySignInUpPOST env (Some original) input w)) !! v
    = Metadata.metadata w !! v.
Proof.
  assert (Some u <> Some v) as Hne by congruence.
  split; [by apply FrameFacts.spares_getServiceData|].
  split; [by apply FrameFacts.spares_addService|].
  split; [by apply FrameFacts.spares_editService|].
  apply FrameFacts.spares_thirdPartySignInUpPOST.
  intros f response' [= <-] Hf. rewrite Hsigned in Hf. injection Hf as <-.
  congruence.
Qed.

Lemma X5_other_users_untouched_witness :
  Metadata.metadata
    (snd (Metadata.thirdPartySignInUpPOST Examples.env (Some Examples.signs_in)
            Examples.form Examples.linked)) !! "u2"
    = Metadata.metadata Examples.linked !! "u2".
Proof.
  assert ("u2" <> "u1") as Hne by discriminate.
  apply (X5_other_users_untouched Examples.env Examples.signs_in Examples.form
           {| status := "OK"; user := Some "u1";
              authCodeResponse := Examples.fresh_token |}
           Examples.linked "u1" "u2" None None VNull Hne eq_refl eq_refl).
Defined.

(** X6.  No [/api/*] request of the metadata-backed variant, whatever its
    method, session and headers and however it ends, adds, removes or
    changes a record of any user; and when no stored collection is a
    number, such a request writes nothing at all. *)
Theorem X6_routes_keep_records (env : environment) (req : request)
    (w : Metadata.world) :
  (forall v,
     Metadata.records (Metadata.metadata (snd (Metadata.api env req w)) !! v)
     = Metadata.records (Metadata.metadata w !! v)) /\
  ((forall u k, Metadata.metadata w !! u <> Some (Metadata.Corrupt k)) ->
   snd (Metadata.api env req w) = w).
Proof.
  split.
  - intros v. apply FrameFacts.keeps_api.
  - apply FrameFacts.read_only_api.
Qed.

Lemma X6_routes_keep_records_witness :
  let req := Examples.request_of DELETE (Some "u1") (Some "Box") (Some "Box") in
  snd (Metadata.api Examples.env req Examples.linked) = Examples.linked.
Proof.
  intros req. apply (X6_routes_keep_records Examples.env req Examples.linked).
  intros u k Hk. destruct (decide (u = "u1")) as [->|Hne].
  - vm_compute in Hk. discriminate Hk.
  - unfold Examples.linked in Hk. simpl in Hk.
    rewrite lookup_singleton_ne in Hk by congruence. discriminate Hk.
Defined.

(** * Further properties of the dispatcher and the interceptor *)

(** X7.  Metadata-backed: a catch-all request of a signed-in caller whose
    [provider-id] names a record of the caller is forwarded to the backend
    origin, with the caller's id in [authenticated-user] and the [data] of
    the first record of that name in [provider-credentials], when the id
    and the JSON text of the data are legal header values; when the data
    has no JSON text or an illegal one, or the id is illegal, the request
    is answered [500] and not forwarded.  The store is not written. *)
Theorem X7_proxy_forwards_the_record (env : environment) (req : request)
    (u target : string) (w : Metadata.world)
    (l1 l2 : list Metadata.service) (x : Metadata.service)
    (Hget : req_method req <> GET) (Hhead : req_method req <> HEAD)
    (Hput : req_method req <> PUT)
    (Hsession : req_session req = Some u)
    (Hstored : Metadata.metadata w !! u = Some (Metadata.Services (l1 ++ x :: l2)))
    (Hname : Metadata.name x = provider_id req)
    (Hfirst : provider_id req ∉ map Metadata.name l1)
    (Htarget : JONCTIONFS_URI env = Some target) :
  (valid_header_value (or_else (Some u) "My-username") = true ->
   is_Some (header_value (Metadata.data x)) ->
   Metadata.api env req w =
     (Ok (ProxyWeb target (or_else (Some u) "My-username") (Metadata.data x)), w)) /\
  (header_value (Metadata.data x) = None \/
   valid_header_value (or_else (Some u) "My-username") = false ->
   Metadata.api env req w = (Ok (Status 500), w)).
Proof.
  assert (Metadata.api env req w =
          try_catch (proxy_web (JONCTIONFS_URI env) (or_else (Some u) "My-username")
                       (Metadata.data x))
            (fun _ => ret (Status 500)) w) as ->.
  { rewrite (MetadataFacts.metadata_api_signed_in _ _ _ _ Hsession).
    rewrite <- (MoreMetadataFacts.all_api_found env req u w l1 l2 x) by assumption.
    by destruct (req_method req). }
  unfold try_catch. split.
  - intros Hu Hd. by rewrite (HeaderFacts.proxy_web_ok _ _ _ target w Htarget Hu Hd).
  - intros Hbad.
    destruct (HeaderFacts.proxy_web_refused (JONCTIONFS_URI env) _ _ w Hbad) as [e ->].
    done.
Qed.

Lemma X7_proxy_forwards_the_record_witness :
  let req := Examples.request_of POST (Some "u1") (Some "Google Drive") None in
  Metadata.api Examples.env req Examples.linked =
    (Ok (ProxyWeb "http://backend" "u1" Examples.token), Examples.linked).
Proof.
  intros req.
  assert (req_method req <> GET) as Hget by discriminate.
  assert (req_method req <> HEAD) as Hhead by discriminate.
  assert (req_method req <> PUT) as Hput by discriminate.
  assert (provider_id req ∉ map Metadata.name [Examples.box]) as Hfirst.
  { change (Some "Google Drive" ∉ [Some "Box"]). intros Hin.
    apply list_elem_of_singleton in Hin. discriminate Hin. }
  apply (X7_proxy_forwards_the_record Examples.env req "u1" "http://backend"
           Examples.linked [Examples.box] [] Examples.drive Hget Hhead Hput
           eq_refl eq_refl eq_refl Hfirst eq_refl).
  - reflexivity.
  - eexists. reflexivity.
Defined.

(** X8.  Metadata-backed: after a successful sign-in of a user whose stored
    collection is not the number, a catch-all request of that user for
    [Google Drive] is forwarded with the token-exchange response of that
    sign-in as credentials, whether the record existed before or not,
    provided the user id and the JSON text of the response are legal
    header values. *)
Theorem X8_sign_in_then_proxy (env : environment)
    (original : signin_input -> completion) (input : signin_input)
    (response : signin_response) (req : request)
    (id target : string) (w : Metadata.world)
    (Hr : original {| clientId := GOOGLE_CLIENT_ID env; payload := payload input |}
          = Resolves response)
    (Hs : status response = "OK") (Hu : user response = Some id)
    (Hhealthy : forall k, Metadata.metadata w !! id <> Some (Metadata.Corrupt k))
    (Hget : req_method req <> GET) (Hhead : req_method req <> HEAD)
    (Hput : req_method req <> PUT)
    (Hsession : req_session req = Some id)
    (Hprovider : provider_id req = Some "Google Drive")
    (Htarget : JONCTIONFS_URI env = Some target)
    (Hid : valid_header_value (or_else (Some id) "My-username") = true)
    (Htoken : is_Some (header_value (authCodeResponse response))) :
  exists w1,
    Metadata.thirdPartySignInUpPOST env (Some original) input w = (Ok response, w1) /\
    Metadata.api env req w1 =
      (Ok (ProxyWeb target (or_else (Some id) "My-username") (authCodeResponse response)),
       w1).
Proof.
  destruct (MoreMetadataFacts.sign_in_stores env original input response id w
              Hr Hs Hu Hhealthy) as (w1 & l1 & x & l2 & H1 & E1 & Hx & Hl1 & Hd & _).
  exists w1. split; [exact H1|].
  assert (Metadata.api env req w1 = Metadata.all_api env req (Some id) w1) as ->.
  { rewrite (MetadataFacts.metadata_api_signed_in _ _ _ _ Hsession).
    by destruct (req_method req). }
  rewrite (MoreMetadataFacts.all_api_found env req id w1 l1 l2 x E1);
    rewrite ?Hprovider; try done.
  unfold try_catch. rewrite Hd.
  by rewrite (HeaderFacts.proxy_web_ok _ _ _ target w1 Htarget Hid Htoken).
Qed.

Lemma X8_sign_in_then_proxy_witness :
  let req := Examples.request_of POST (Some "u1") (Some "Google Drive") None in
  exists w1,
    Metadata.thirdPartySignInUpPOST Examples.env (Some Examples.signs_in)
      Examples.form Examples.linked
      = (Ok {| status := "OK"; user := Some "u1";
               authCodeResponse := Examples.fresh_token |}, w1) /\
    Metadata.api Examples.env req w1 =
      (Ok (ProxyWeb "http://backend" "u1" Examples.fresh_token), w1).
Proof.
  intros req.
  assert (req_method req <> GET) as Hget by discriminate.
  assert (req_method req <> HEAD) as Hhead by discriminate.
  assert (req_method req <> PUT) as Hput by discriminate.
  assert (forall k, Metadata.metadata Examples.linked !! "u1"
                    <> Some (Metadata.Corrupt k)) as Hh.
  { intros k Hk. vm_compute in Hk. discriminate Hk. }
  assert (is_Some (header_value Examples.fresh_token)) as Htoken
    by (eexists; reflexivity).
  exact (X8_sign_in_then_proxy Examples.env Examples.signs_in Examples.form
           {| status := "OK"; user := Some "u1";
              authCodeResponse := Examples.fresh_token |}
           req "u1" "http://backend" Examples.linked eq_refl eq_refl eq_refl Hh
           Hget Hhead Hput eq_refl eq_refl eq_refl eq_refl Htoken).
Defined.

(** X9.  Metadata-backed: signing in twice in a row keeps one [Google
    Drive] record: the second sign-in finds the record of the first,
    leaves the number of records as it is and stores its own token. *)
Theorem X9_sign_in_twice_keeps_one_record (env : environment)
    (original original' : signin_input -> completion) (input input' : signin_input)
    (response response' : signin_response) (id : string) (w : Metadata.world)
    (Hr : original {| clientId := GOOGLE_CLIENT_ID env; payload := payload input |}
          = Resolves response)
    (Hs : status response = "OK") (Hu : user response = Some id)
    (Hr' : original' {| clientId := GOOGLE_CLIENT_ID env; payload := payload input' |}
           = Resolves response')
    (Hs' : status response' = "OK") (Hu' : user response' = Some id)
    (Hhealthy : forall k, Metadata.metadata w !! id <> Some (Metadata.Corrupt k)) :
  exists w1 w2 x,
    Metadata.thirdPartySignInUpPOST env (Some original) input w = (Ok response, w1) /\
    Metadata.thirdPartySignInUpPOST env (Some original') input' w1 = (Ok response', w2) /\
    length (Metadata.records (Metadata.metadata w2 !! id))
      = length (Metadata.records (Metadata.metadata w1 !! id)) /\
    Metadata.getServiceData (Some id) (Some "Google Drive") w2
      = (Ok (Metadata.Found x), w2) /\
    Metadata.data x = authCodeResponse response'.
Proof.
  destruct (MoreMetadataFacts.sign_in_stores env original input response id w
              Hr Hs Hu Hhealthy) as (w1 & l1 & x & l2 & H1 & E1 & Hx & Hl1 & _ & _).
  assert (forall k, Metadata.metadata w1 !! id <> Some (Metadata.Corrupt k)) as Hh1.
  { intros k. by rewrite E1. }
  destruct (MoreMetadataFacts.sign_in_stores env original' input' response' id w1
              Hr' Hs' Hu' Hh1) as (w2 & l1' & x' & l2' & H2 & E2 & Hx' & Hl1' & Hd' & Hlen).
  exists w1, w2, x'. split; [exact H1|]. split; [exact H2|]. split; [|split; [|exact Hd']].
  - rewrite E2. simpl. rewrite Hlen. clear Hlen. rewrite E1. simpl.
    case_decide as Hn; [done|].
    exfalso. apply Hn. rewrite map_app. apply elem_of_app. right.
    simpl. rewrite Hx. apply list_elem_of_here.
  - rewrite (MetadataFacts.getServiceData_array _ _ _ _ E2).
    by rewrite (MetadataFacts.find_hit _ _ _ _ Hl1' Hx').
Qed.

Lemma X9_sign_in_twice_keeps_one_record_witness :
  exists w1 w2,
    Metadata.thirdPartySignInUpPOST Examples.env (Some Examples.signs_in)
      Examples.form Examples.fresh
      = (Ok {| status := "OK"; user := Some "u1";
               authCodeResponse := Examples.fresh_token |}, w1) /\
    Metadata.thirdPartySignInUpPOST Examples.env (Some Examples.signs_in)
      Examples.form w1
      = (Ok {| status := "OK"; user := Some "u1";
               authCodeResponse := Examples.fresh_token |}, w2) /\
    length (Metadata.records (Metadata.metadata w2 !! "u1"))
      = length (Metadata.records (Metadata.metadata w1 !! "u1")).
Proof.
  assert (forall k, Metadata.metadata Examples.fresh !! "u1"
                    <> Some (Metadata.Corrupt k)) as Hh by (intros k; discriminate).
  destruct (X9_sign_in_twice_keeps_one_record Examples.env Examples.signs_in
              Examples.signs_in Examples.form Examples.form
              {| status := "OK"; user := Some "u1";
                 authCodeResponse := Examples.fresh_token |}
              {| status := "OK"; user := Some "u1";
                 authCodeResponse := Examples.fresh_token |}
              "u1" Examples.fresh eq_refl eq_refl eq_refl eq_refl eq_refl eq_refl Hh)
    as (w1 & w2 & x & H1 & H2 & Hlen & _).
  exists w1, w2. split; [exact H1|]. split; [exact H2|exact Hlen].
Defined.

(** X10.  In both variants, when the wrapped completion answers with a
    status other than [OK], the interceptor hands the answer back as it is
    and does not touch the store. *)
Theorem X10_sign_in_other_status (env : environment)
    (original : signin_input -> completion) (input : signin_input)
    (response : signin_response) (w : Metadata.world) (cw : Cache.world)
    (Hr : original {| clientId := GOOGLE_CLIENT_ID env; payload := payload input |}
          = Resolves response)
    (Hs : status response <> "OK") :
  Metadata.thirdPartySignInUpPOST env (Some original) input w = (Ok response, w) /\
  Cache.thirdPartySignInUpPOST env (Some original) input cw = (Ok response, cw).
Proof.
  apply String.eqb_neq in Hs.
  unfold Metadata.thirdPartySignInUpPOST, Cache.thirdPartySignInUpPOST.
  by rewrite Hr, Hs.
Qed.

Lemma X10_sign_in_other_status_witness :
  Metadata.thirdPartySignInUpPOST Examples.env (Some Samples.declines)
    Examples.form Examples.linked
  = (Ok {| status := "NO_EMAIL_GIVEN_BY_PROVIDER"; user := None;
           authCodeResponse := VUndefined |}, Examples.linked).
Proof.
  apply (X10_sign_in_other_status Examples.env Samples.declines Examples.form
           {| status := "NO_EMAIL_GIVEN_BY_PROVIDER"; user := None;
              authCodeResponse := VUndefined |}
           Examples.linked Examples.one_cache eq_refl).
  discriminate.
Defined.

(** X11.  In both variants, when the wrapped completion throws, the
    interceptor swallows that error and then fails on the undefined
    result: whatever was thrown, the caller sees the same [TypeError], and
    the store is not touched. *)
Theorem X11_sign_in_failure_is_replaced (env : environment)
    (original : signin_input -> completion) (input : signin_input) (e : exn)
    (w : Metadata.world) (cw : Cache.world)
    (Hr : original {| clientId := GOOGLE_CLIENT_ID env; payload := payload input |}
          = Rejects e) :
  Metadata.thirdPartySignInUpPOST env (Some original) input w =
    (Throw (TypeError "Cannot read properties of undefined (reading 'status')"), w) /\
  Cache.thirdPartySignInUpPOST env (Some original) input cw =
    (Throw (TypeError "Cannot read properties of undefined (reading 'status')"), cw).
Proof.
  unfold Metadata.thirdPartySignInUpPOST, Cache.thirdPartySignInUpPOST.
  by rewrite Hr.
Qed.

Lemma X11_sign_in_failure_is_replaced_witness :
  Metadata.thirdPartySignInUpPOST Examples.env (Some Samples.crashes)
    Examples.form Examples.linked =
    (Throw (TypeError "Cannot read properties of undefined (reading 'status')"),
     Examples.linked).
Proof.
  apply (X11_sign_in_failure_is_replaced Examples.env Samples.crashes Examples.form
           (Error "provider is down") Examples.linked Examples.one_cache).
  reflexivity.
Defined.

(** X12.  In both variants, whenever the catch-all handler forwards a
    request, the [authenticated-user] header it sets is not empty: it is
    the caller's id, or the placeholder [My-username] when there is no id
    or the id is the empty string. *)
Theorem X12_authenticated_user_never_empty (env : environment) (req : request)
    (userId : jsstring) (w w' : Metadata.world) (cw cw' : Cache.world)
    (target target' a a' : string) (c c' : value) :
  (Metadata.all_api env req userId w = (Ok (ProxyWeb target a c), w') ->
   a <> "" /\ (userId = Some a \/ a = "My-username")) /\
  (Cache.all_api env req userId cw = (Ok (ProxyWeb target' a' c'), cw') ->
   a' <> "" /\ (userId = Some a' \/ a' = "My-username")).
Proof.
  assert (forall x, x = or_else userId "My-username" ->
            x <> "" /\ (userId = Some x \/ x = "My-username")) as Hor.
  { intros x ->. unfold or_else. destruct userId as [y|]; [|split; [done|by right]].
    destruct (String.eqb_spec y ""); [split; [done|by right]|split; [done|by left]]. }
  split; intros H; apply Hor.
  - unfold Metadata.all_api, try_catch, bind in H.
    destruct (Metadata.getServiceData userId (provider_id req) w) as [[[| |x]|e] w1];
      try discriminate H.
    destruct (proxy_web _ _ _ w1) as [[r|e] w2] eqn:P; [|discriminate H].
    destruct (HeaderFacts.proxy_web_inv _ _ _ _ _ _ P) as (t & _ & -> & _).
    by injection H.
  - unfold Cache.all_api, try_catch, bind, Cache.client_get in H. simpl in H.
    destruct (get_property _ _ cw) as [[v|e] w1]; [|discriminate H].
    destruct (proxy_web _ _ _ w1) as [[r|e] w2] eqn:P; [|discriminate H].
    destruct (HeaderFacts.proxy_web_inv _ _ _ _ _ _ P) as (t & _ & -> & _).
    by injection H.
Qed.

Lemma X12_authenticated_user_never_empty_witness :
  let req := Examples.request_of POST (Some "") (Some "Box") (Some "Box") in
  let cw := {| Cache.cache := {[ "_Box_Box" := VObj [("data", VStr "secret")] ]};
               Cache.sets := [] |} in
  Cache.all_api Examples.env req (Some "") cw
    = (Ok (ProxyWeb "http://backend" "My-username" (VStr "secret")), cw) /\
  "My-username" <> "".
Proof.
  intros req cw.
  assert (Cache.all_api Examples.env req (Some "") cw
    = (Ok (ProxyWeb "http://backend" "My-username" (VStr "secret")), cw)) as H
    by reflexivity.
  split; [exact H|].
  apply (X12_authenticated_user_never_empty Examples.env req (Some "")
           Examples.linked Examples.linked cw cw "http://backend" "http://backend"
           "My-username" "My-username" VNull (VStr "secret")).
  exact H.
Defined.

(** * Further properties of the string methods *)

Module MoreStringFacts.

#[local] Arguments String.append !_ _ : simpl nomatch.

Lemma append_empty (x : string) : (x ++ "")%string = x.
Proof. induction x as [|c x IH]; simpl; [done|]. by rewrite IH. Qed.

Lemma substring_all (x : string) : String.substring 0 (String.length x) x = x.
Proof. induction x as [|c x IH]; simpl; [done|]. by rewrite IH. Qed.

(** [x.substring(start)] between the bounds drops [start] characters. *)
Lemma substring_from_drop (x : string) (start : Z) :
  0 <= start <= Z.of_nat (String.length x) ->
  substring_from x start =
    String.substring (Z.to_nat start) (String.length x - Z.to_nat start) x.
Proof.
  intros H. unfold substring_from, substring.
  rewrite (Z.max_l start 0), (Z.min_l start), Z.max_l, Z.min_id, Z.min_l, Z.max_r
    by lia.
  f_equal. lia.
Qed.

Lemma substring_from_append (p t : string) :
  substring_from (p ++ t) (Z.of_nat (String.length p)) = t.
Proof.
  rewrite substring_from_drop by (rewrite StringFacts.length_append; lia).
  rewrite Nat2Z.id, StringFacts.length_append.
  replace (String.length p + String.length t - String.length p)%nat
    with (String.length t) by lia.
  pose proof (StringFacts.substring_middle p t "") as H.
  by rewrite append_empty in H.
Qed.

Lemma lastIndexOf_bounds (x : string) (c : ascii) :
  -1 <= lastIndexOf x c < Z.of_nat (String.length x).
Proof.
  induction x as [|d x IH]; simpl String.length; simpl lastIndexOf; [lia|].
  destruct (Z.leb_spec 0 (lastIndexOf x c)); [lia|].
  destruct (Ascii.eqb d c); lia.
Qed.

Lemma lastIndexOf_none (x : string) (c : ascii) :
  lastIndexOf x c < 0 -> indexOf x c = -1.
Proof.
  induction x as [|d x IH]; simpl; [done|].
  destruct (Z.leb_spec 0 (lastIndexOf x c)) as [Hge|Hlt].
  - pose proof (lastIndexOf_bounds x c). lia.
  - destruct (Ascii.eqb d c); [lia|]. intros _. by rewrite (IH Hlt).
Qed.

(** What follows the last occurrence of [c] has no [c]. *)
Lemma after_last (x : string) (c : ascii) :
  indexOf (substring_from x (lastIndexOf x c + 1)) c = -1.
Proof.
  pose proof (lastIndexOf_bounds x c) as Hb.
  rewrite substring_from_drop by lia. clear Hb.
  induction x as [|d x IH]; [done|].
  pose proof (lastIndexOf_bounds x c) as Hb.
  simpl lastIndexOf. simpl String.length.
  destruct (Z.leb_spec 0 (lastIndexOf x c)) as [Hge|Hlt].
  - replace (Z.to_nat (lastIndexOf x c + 1 + 1))
      with (S (Z.to_nat (lastIndexOf x c + 1))) by lia.
    exact IH.
  - pose proof (lastIndexOf_none x c Hlt) as Hnone.
    destruct (Ascii.eqb d c) eqn:E.
    + change (Z.to_nat (0 + 1)) with 1%nat.
      replace (S (String.length x) - 1)%nat with (String.length x) by lia.
      change (String.substring 1 (String.length x) (String d x))
        with (String.substring 0 (String.length x) x).
      by rewrite substring_all.
    + change (Z.to_nat (-1 + 1)) with 0%nat. rewrite Nat.sub_0_r.
      change (S (String.length x)) with (String.length (String d x)).
      rewrite (substring_all (String d x)). simpl. by rewrite E, Hnone.
Qed.

End MoreStringFacts.

(** * Further properties of the cache-backed variant *)

Module MoreCacheFacts.
Import Cache.

(** Reading [data] back from a stored object literal. *)
Lemma data_of_object (fields : list (string * value)) (d : value) (w : world) :
  (forall kv, kv ∈ fields -> fst kv <> "data") ->
  get_property (object (fields ++ [("data", d)])) "data" w = (Ok d, w).
Proof.
  intros Hother. unfold object, get_property, ret. do 2 f_equal.
  induction fields as [|[k v] fields IH]; simpl.
  - by destruct d.
  - assert (k <> "data") as Hk by (apply (Hother (k, v)); apply list_elem_of_here).
    assert (forall kv, kv ∈ fields -> fst kv <> "data") as Hrest
      by (intros kv Hin; apply Hother; by apply list_elem_of_further).
    destruct v; simpl; rewrite ?(proj2 (String.eqb_neq k "data") Hk); by apply IH.
Qed.

(** The catch-all handler when the key has an entry. *)
Lemma all_api_entry (env : environment) (req : request) (userId : jsstring)
    (w : world) (fields : list (string * value)) (d : value) :
  cache w !! connectionName userId (provider_id req) (provider_type req)
    = Some (object (fields ++ [("data", d)])) ->
  (forall kv, kv ∈ fields -> fst kv <> "data") ->
  all_api env req userId w =
    try_catch (proxy_web (JONCTIONFS_URI env) (or_else userId "My-username") d)
      (fun _ => ret (Status 500)) w.
Proof.
  intros Hentry Hfields. unfold all_api, try_catch, bind, client_get.
  rewrite Hentry.
  change (default VNull (Some (object (fields ++ [("data", d)]))))
    with (object (fields ++ [("data", d)])).
  by rewrite (data_of_object fields d w Hfields).
Qed.

(** A registration followed by a forward under the same key. *)
Lemma put_then_proxy (env : environment) (put req : request) (s s' : jsstring)
    (w : world) :
  cache w !! connectionName s (body_name put) (body_type put) = None ->
  connectionName s' (provider_id req) (provider_type req)
    = connectionName s (body_name put) (body_type put) ->
  exists w1,
    put_api put s w = (Ok (Status 201), w1) /\
    all_api env req s' w1 =
      try_catch
        (proxy_web (JONCTIONFS_URI env) (or_else s' "My-username") (body_data put))
        (fun _ => ret (Status 500)) w1.
Proof.
  intros Hfree Hkey. unfold put_api, bind, client_get. simpl. rewrite Hfree.
  eexists. split; [reflexivity|].
  unfold all_api, try_catch, bind, client_get. simpl. rewrite Hkey.
  rewrite lookup_insert_eq.
  pose proof (data_of_object [("name", of_jsstring (body_name put))] (body_data put))
    as Hd.
  simpl app in Hd. unfold default. rewrite Hd; [done|].
  intros kv Hin. apply list_elem_of_singleton in Hin. by subst.
Qed.

Lemma all_api_reads_only (env : environment) (req : request) (userId : jsstring)
    (w : world) :
  snd (all_api env req userId w) = w.
Proof.
  unfold all_api, try_catch, bind, client_get. simpl.
  destruct (get_property _ _ w) as [[x|e] w1] eqn:G.
  - assert (w1 = w) as ->.
    { unfold get_property in G. destruct (default VNull _); by injection G. }
    pose proof (HeaderFacts.proxy_web_state (JONCTIONFS_URI env)
                  (or_else userId "My-username") x w) as P.
    by destruct (proxy_web _ _ _ w) as [[r|e] w2].
  - assert (w1 = w) as ->.
    { unfold get_property in G. destruct (default VNull _); by injection G. }
    done.
Qed.

Lemma keeps_entries_api (env : environment) (req : request) :
  Frame.keeps_entries (api env req).
Proof.
  intros w k v Hk. unfold api, guarded.
  destruct (req_method req); destruct (verifySession _ _) as [|userId];
    rewrite ?all_api_reads_only; try done.
  unfold put_api, bind, client_get. simpl.
  destruct (cache w !! connectionName userId (body_name req) (body_type req))
    as [old|] eqn:E; [done|].
  simpl. rewrite lookup_insert_ne; [done|]. congruence.
Qed.

End MoreCacheFacts.

(** X13.  Cache-backed: after a [PUT /api/*] that registers a service
    under a key that was free, a catch-all request of the same caller with
    the same name and type in [provider-id] and [provider-type] is
    forwarded with the registered [data] as credentials, when the caller's
    id and the JSON text of the data are legal header values; a service
    registered without [data], or with data whose JSON text is illegal, is
    answered [500] and not forwarded.  This holds for a signed-in caller
    and, when auth is disabled, for a caller without a session, and also
    when the name or the type is missing on both sides. *)
Theorem X13_register_then_proxy (env : environment) (put req : request)
    (s : jsstring) (target : string) (cw : Cache.world)
    (Hgate : verifySession (sessionRequired (DISABLE_AUTH env)) s = Next s)
    (Hmethod : req_method put = PUT) (Hcaller : req_session put = s)
    (Hget : req_method req <> GET) (Hhead : req_method req <> HEAD)
    (Hput : req_method req <> PUT) (Hsame : req_session req = s)
    (Hname : provider_id req = body_name put)
    (Htype : provider_type req = body_type put)
    (Hfree : Cache.cache cw
               !! Cache.connectionName s (body_name put) (body_type put) = None)
    (Htarget : JONCTIONFS_URI env = Some target) :
  exists cw1,
    Cache.api env put cw = (Ok (Status 201), cw1) /\
    (valid_header_value (or_else s "My-username") = true ->
     is_Some (header_value (body_data put)) ->
     Cache.api env req cw1 =
       (Ok (ProxyWeb target (or_else s "My-username") (body_data put)), cw1)) /\
    (header_value (body_data put) = None \/
     valid_header_value (or_else s "My-username") = false ->
     Cache.api env req cw1 = (Ok (Status 500), cw1)).
Proof.
  destruct (MoreCacheFacts.put_then_proxy env put req s s cw Hfree)
    as (cw1 & H1 & H2); [by rewrite Hname, Htype|].
  exists cw1.
  assert (Cache.api env req cw1 = Cache.all_api env req s cw1) as ->.
  { unfold Cache.api, guarded. rewrite Hsame, Hgate. by destruct (req_method req). }
  rewrite H2. unfold try_catch. split; [|split].
  - unfold Cache.api, guarded. by rewrite Hmethod, Hcaller, Hgate.
  - intros Hu Hd. by rewrite (HeaderFacts.proxy_web_ok _ _ _ target cw1 Htarget Hu Hd).
  - intros Hbad.
    destruct (HeaderFacts.proxy_web_refused (JONCTIONFS_URI env) _ _ cw1 Hbad)
      as [e ->].
    done.
Qed.

Lemma X13_register_then_proxy_witness :
  let put := Examples.request_of PUT (Some "u1") (Some "Box") (Some "Box") in
  let req := Examples.request_of POST (Some "u1") (Some "Box") (Some "Box") in
  exists cw1,
    Cache.api Examples.env put Examples.one_cache = (Ok (Status 201), cw1) /\
    Cache.api Examples.env req cw1 =
      (Ok (ProxyWeb "http://backend" "u1" (VStr "secret")), cw1).
Proof.
  intros put req.
  assert (req_method req <> GET) as Hget by discriminate.
  assert (req_method req <> HEAD) as Hhead by discriminate.
  assert (req_method req <> PUT) as Hput by discriminate.
  destruct (X13_register_then_proxy Examples.env put req (Some "u1") "http://backend"
              Examples.one_cache eq_refl eq_refl eq_refl Hget Hhead Hput eq_refl
              eq_refl eq_refl eq_refl eq_refl) as (cw1 & H1 & H2 & _).
  exists cw1. split; [exact H1|]. apply H2; [reflexivity|].
  eexists. reflexivity.
Defined.

(** X14.  Cache-backed: after a signed-in user whose id has no underscore
    registers a service whose type has no underscore, under a key that was
    free, that user's listing shows the service with its name as [id] and
    its type as [type]. *)
Theorem X14_register_then_list (env : environment) (put list : request)
    (u : string) (cw : Cache.world)
    (Hmethod : req_method put = PUT) (Hcaller : req_session put = Some u)
    (Hget : req_method list = GET) (Hsame : req_session list = Some u)
    (Hfree : Cache.cache cw
               !! Cache.connectionName (Some u) (body_name put) (body_type put) = None)
    (Huser : indexOf u "_" = -1)
    (Htype : indexOf (ToString (body_type put)) "_" = -1) :
  exists cw1 l,
    Cache.api env put cw = (Ok (Status 201), cw1) /\
    Cache.api env list cw1 = (Ok (Json (VArr l)), cw1) /\
    VObj [("id", VStr (ToString (body_name put)));
          ("type", VStr (ToString (body_type put)))] ∈ l.
Proof.
  rewrite (CacheFacts.cache_api_signed_in _ _ _ _ Hcaller), Hmethod.
  unfold Cache.put_api, bind, Cache.client_get. simpl. rewrite Hfree.
  eexists _, _. split; [reflexivity|].
  rewrite (CacheFacts.cache_api_signed_in _ _ _ _ Hsame), Hget.
  split; [apply CacheFacts.get_api_listed|].
  destruct (StringFacts.substring_name u (ToString (body_name put))
              (ToString (body_type put)) Huser Htype) as [Hn Hty].
  replace (VObj [("id", VStr (ToString (body_name put)));
                 ("type", VStr (ToString (body_type put)))])
    with (Cache.connection
            (Cache.connectionName (Some u) (body_name put) (body_type put))).
  - apply CacheFacts.is_listed.
    + simpl. rewrite lookup_insert_eq. by eexists.
    + apply StringFacts.startsWith_append.
  - unfold Cache.connection, Cache.connectionName.
    change (ToString (Some u)) with u. cbv zeta. by rewrite Hn, Hty.
Qed.

Lemma X14_register_then_list_witness :
  let put := Examples.request_of PUT (Some "u1") (Some "Box") (Some "Box") in
  let list := Examples.request_of GET (Some "u1") None None in
  exists cw1 l,
    Cache.api Examples.env put Examples.one_cache = (Ok (Status 201), cw1) /\
    Cache.api Examples.env list cw1 = (Ok (Json (VArr l)), cw1) /\
    VObj [("id", VStr "Box"); ("type", VStr "Box")] ∈ l.
Proof.
  intros put list.
  exact (X14_register_then_list Examples.env put list "u1" Examples.one_cache
           eq_refl eq_refl eq_refl eq_refl eq_refl eq_refl eq_refl).
Defined.

(** X15.  Cache-backed: keys do not keep users apart.  When the id of user
    [B] is the id of user [A] followed by an underscore and [x], the key of
    [B]'s service [n] is also the key of a service [x_n] of [A]: after [B]
    registers [n] with data whose JSON text is a legal header value, a
    catch-all request of [A] (whose id is a legal header value) with
    [provider-id] [x_n] is forwarded with the credentials that [B]
    registered. *)
Theorem X15_keys_collide_across_users (env : environment) (put req : request)
    (A x n target : string) (cw : Cache.world)
    (Hmethod : req_method put = PUT)
    (Hcaller : req_session put = Some (A ++ "_" ++ x)%string)
    (Hbody : body_name put = Some n)
    (Hget : req_method req <> GET) (Hhead : req_method req <> HEAD)
    (Hput : req_method req <> PUT)
    (Hother : req_session req = Some A)
    (Hname : provider_id req = Some (x ++ "_" ++ n)%string)
    (Htype : provider_type req = body_type put)
    (Hfree : Cache.cache cw
               !! Cache.connectionName (Some (A ++ "_" ++ x)%string) (Some n)
                    (body_type put) = None)
    (Htarget : JONCTIONFS_URI env = Some target)
    (Huser : valid_header_value (or_else (Some A) "My-username") = true)
    (Hdata : is_Some (header_value (body_data put))) :
  (A ++ "_" ++ x)%string <> A /\
  exists cw1,
    Cache.api env put cw = (Ok (Status 201), cw1) /\
    Cache.api env req cw1 =
      (Ok (ProxyWeb target (or_else (Some A) "My-username") (body_data put)), cw1).
Proof.
  split.
  { intros H. apply (f_equal String.length) in H.
    rewrite !StringFacts.length_append in H. simpl in H. lia. }
  rewrite <- Hbody in Hfree.
  destruct (MoreCacheFacts.put_then_proxy env put req
              (Some (A ++ "_" ++ x)%string) (Some A) cw Hfree)
    as (cw1 & H1 & H2).
  - rewrite Hname, Htype, Hbody. unfold Cache.connectionName. simpl ToString.
    by rewrite !StringFacts.append_assoc.
  - exists cw1.
    rewrite (CacheFacts.cache_api_signed_in _ _ _ _ Hcaller), Hmethod.
    rewrite (CacheFacts.cache_api_signed_in _ _ _ _ Hother).
    split; [exact H1|].
    assert (Cache.all_api env req (Some A) cw1 =
            (Ok (ProxyWeb target (or_else (Some A) "My-username") (body_data put)), cw1))
      as H3.
    { rewrite H2. unfold try_catch.
      by rewrite (HeaderFacts.proxy_web_ok _ _ _ target cw1 Htarget Huser Hdata). }
    by destruct (req_method req).
Qed.

Lemma X15_keys_collide_across_users_witness :
  let put := Examples.request_of PUT (Some "u1_x") (Some "Box") (Some "Box") in
  let req := Examples.request_of POST (Some "u1") (Some "x_Box") (Some "Box") in
  exists cw1,
    Cache.api Examples.env put Examples.one_cache = (Ok (Status 201), cw1) /\
    Cache.api Examples.env req cw1 =
      (Ok (ProxyWeb "http://backend" "u1" (VStr "secret")), cw1).
Proof.
  intros put req.
  assert (req_method req <> GET) as Hget by discriminate.
  assert (req_method req <> HEAD) as Hhead by discriminate.
  assert (req_method req <> PUT) as Hput by discriminate.
  assert (is_Some (header_value (body_data put))) as Hdata
    by (eexists; reflexivity).
  exact (proj2 (X15_keys_collide_across_users Examples.env put req "u1" "x" "Box"
                  "http://backend" Examples.one_cache eq_refl eq_refl eq_refl
                  Hget Hhead Hput eq_refl eq_refl eq_refl eq_refl eq_refl
                  eq_refl Hdata)).
Defined.

(** X16.  Cache-backed: the [type] that the listing shows for a key is what
    follows the last underscore of the key, so it never has an underscore
    itself; a service registered with a type that has one is never listed
    under its own type. *)
Theorem X16_listed_type_has_no_underscore (k : string) :
  (exists i t,
     Cache.connection k = VObj [("id", VStr i); ("type", VStr t)] /\
     indexOf t "_" = -1) /\
  (forall i t,
     indexOf t "_" <> -1 ->
     Cache.connection k <> VObj [("id", VStr i); ("type", VStr t)]).
Proof.
  split.
  - eexists _, _. split; [reflexivity|]. apply MoreStringFacts.after_last.
  - intros i t Ht H. unfold Cache.connection in H.
    injection H as _ H. apply Ht. rewrite <- H.
    apply MoreStringFacts.after_last.
Qed.

Lemma X16_listed_type_has_no_underscore_witness :
  Cache.connection (Cache.connectionName (Some "u1") (Some "Drive") (Some "google_drive"))
  <> VObj [("id", VStr "Drive"); ("type", VStr "google_drive")].
Proof.
  apply (X16_listed_type_has_no_underscore
           (Cache.connectionName (Some "u1") (Some "Drive") (Some "google_drive"))).
  discriminate.
Defined.

(** X17.  Cache-backed: after a successful sign-in, a catch-all request of
    that user with [provider-id] [Google Drive] and [provider-type]
    [GoogleDrive] is forwarded with the token-exchange response of that
    sign-in, whatever was stored under the key before, provided the user
    id and the JSON text of the response are legal header values. *)
Theorem X17_cache_sign_in_then_proxy (env : environment)
    (original : signin_input -> completion) (input : signin_input)
    (response : signin_response) (req : request)
    (id target : string) (cw : Cache.world)
    (Hr : original {| clientId := GOOGLE_CLIENT_ID env; payload := payload input |}
          = Resolves response)
    (Hs : status response = "OK") (Hu : user response = Some id)
    (Hget : req_method req <> GET) (Hhead : req_method req <> HEAD)
    (Hput : req_method req <> PUT)
    (Hsession : req_session req = Some id)
    (Hname : provider_id req = Some "Google Drive")
    (Htype : provider_type req = Some "GoogleDrive")
    (Htarget : JONCTIONFS_URI env = Some target)
    (Hid : valid_header_value (or_else (Some id) "My-username") = true)
    (Htoken : is_Some (header_value (authCodeResponse response))) :
  exists cw1,
    Cache.thirdPartySignInUpPOST env (Some original) input cw = (Ok response, cw1) /\
    Cache.api env req cw1 =
      (Ok (ProxyWeb target (or_else (Some id) "My-username") (authCodeResponse response)),
       cw1).
Proof.
  unfold Cache.thirdPartySignInUpPOST. rewrite Hr, Hs, Hu. simpl.
  eexists. split; [reflexivity|].
  rewrite (CacheFacts.cache_api_signed_in _ _ _ _ Hsession).
  match goal with
  | |- context [Cache.all_api env req (Some id) ?w] =>
      assert (Cache.all_api env req (Some id) w
              = (Ok (ProxyWeb target (or_else (Some id) "My-username")
                       (authCodeResponse response)), w)) as H
  end.
  { rewrite (MoreCacheFacts.all_api_entry env req (Some id) _ []
               (authCodeResponse response)).
    - unfold try_catch.
      by rewrite (HeaderFacts.proxy_web_ok _ _ _ target _ Htarget Hid Htoken).
    - rewrite Hname, Htype. apply lookup_insert_eq.
    - intros kv Hin. by apply elem_of_nil in Hin. }
  by destruct (req_method req).
Qed.

Lemma X17_cache_sign_in_then_proxy_witness :
  let req := Examples.request_of POST (Some "u1") (Some "Google Drive") (Some "GoogleDrive") in
  exists cw1,
    Cache.thirdPartySignInUpPOST Examples.env (Some Examples.signs_in)
      Examples.form Examples.one_cache
      = (Ok {| status := "OK"; user := Some "u1";
               authCodeResponse := Examples.fresh_token |}, cw1) /\
    Cache.api Examples.env req cw1 =
      (Ok (ProxyWeb "http://backend" "u1" Examples.fresh_token), cw1).
Proof.
  intros req.
  assert (req_method req <> GET) as Hget by discriminate.
  assert (req_method req <> HEAD) as Hhead by discriminate.
  assert (req_method req <> PUT) as Hput by discriminate.
  assert (is_Some (header_value Examples.fresh_token)) as Htoken
    by (eexists; reflexivity).
  exact (X17_cache_sign_in_then_proxy Examples.env Examples.signs_in Examples.form
           {| status := "OK"; user := Some "u1";
              authCodeResponse := Examples.fresh_token |}
           req "u1" "http://backend" Examples.one_cache eq_refl eq_refl eq_refl
           Hget Hhead Hput eq_refl eq_refl eq_refl eq_refl eq_refl Htoken).
Defined.

(** X18.  Cache-backed: no [/api/*] request overwrites or removes an entry
    that is in the cache, whatever its method, session, headers and body;
    and a request other than a [PUT] leaves the cache and the log of writes
    exactly as they were. *)
Theorem X18_routes_keep_entries (env : environment) (req : request)
    (cw : Cache.world) :
  (forall k v, Cache.cache cw !! k = Some v ->
               Cache.cache (snd (Cache.api env req cw)) !! k = Some v) /\
  (req_method req <> PUT -> snd (Cache.api env req cw) = cw).
Proof.
  split; [apply MoreCacheFacts.keeps_entries_api|].
  intros Hput. unfold Cache.api, guarded.
  destruct (req_method req); destruct (verifySession _ _);
    rewrite ?MoreCacheFacts.all_api_reads_only; done.
Qed.

Lemma X18_routes_keep_entries_witness :
  let req := Examples.request_of PUT (Some "u1") (Some "Google Drive") (Some "GoogleDrive") in
  Cache.cache (snd (Cache.api Examples.env req Examples.one_cache))
    !! "u1_Google Drive_GoogleDrive" = Some (VObj [("data", Examples.token)]).
Proof.
  intros req.
  apply (X18_routes_keep_entries Examples.env req Examples.one_cache).
  reflexivity.
Defined.

(** * Properties of the routes outside [/api/*] *)

(** X19.  The upload relay strips the first 21 characters of the request
    URL, the length of [/upload/google-drive/], and makes one [PUT] to what
    is left, query string included, with the [Content-Length] header and
    the bytes of the uploaded file as they came; it answers with the status
    of that call and no body.  A request that carries no file makes the
    handler raise before anything is sent. *)
Theorem X19_upload_relays_the_file (fetch : Site.outbound -> Site.fetched)
    (prefix target buffer : string) (length' : jsstring) (status : Z)
    (sent : list Site.outbound)
    (Hprefix : String.length prefix = 21%nat)
    (Hanswer : fetch {| Site.out_url := target; Site.out_method := "PUT";
                        Site.out_content_length := length';
                        Site.out_body := buffer |} = Site.Responds status) :
  Site.upload fetch
    {| Site.url := (prefix ++ target)%string; Site.content_length := length';
       Site.file := Some buffer |} sent =
    (Ok (Site.End status),
     {| Site.out_url := target; Site.out_method := "PUT";
        Site.out_content_length := length'; Site.out_body := buffer |} :: sent) /\
  exists what,
    Site.upload fetch
      {| Site.url := (prefix ++ target)%string; Site.content_length := length';
         Site.file := None |} sent = (Throw (TypeError what), sent).
Proof.
  split; [|by eexists].
  unfold Site.upload. simpl.
  replace 21 with (Z.of_nat (String.length prefix)) by lia.
  rewrite MoreStringFacts.substring_from_append. by rewrite Hanswer.
Qed.

Lemma X19_upload_relays_the_file_witness :
  Site.upload Samples.accepts Samples.photo [] =
    (Ok (Site.End 200),
     [{| Site.out_url := "https://www.googleapis.com/upload?id=7";
         Site.out_method := "PUT";
         Site.out_content_length := Some "3";
         Site.out_body := "abc" |}]).
Proof.
  apply (X19_upload_relays_the_file Samples.accepts "/upload/google-drive/"
           "https://www.googleapis.com/upload?id=7" "abc" (Some "3") 200 []);
    reflexivity.
Defined.

(** X20.  Logout with a live session revokes that session and only that
    one, and then sends the confirmation; afterwards the session no longer
    authenticates, so a request that presents it where a session is
    required is answered as unauthorized.  Without a live session the
    handler does not run when a session is required, and when auth is
    disabled it raises on the missing [req.session] instead of answering. *)
Theorem X20_logout_revokes_the_session (env : environment) (s : Site.session)
    (w : Site.sessions) (req : request) (mw : Metadata.world) (cw : Cache.world)
    (Hlive : Site.handle s ∈ Site.live w) :
  let w' := {| Site.live := Site.live w ∖ {[ Site.handle s ]} |} in
  Site.logout (DISABLE_AUTH env) (Some s) w
    = (Ok (Site.Send "Success! User session revoked"), w') /\
  Site.authenticated (Some s) w' = None /\
  (forall s', Site.handle s' <> Site.handle s ->
              Site.authenticated (Some s') w' = Site.authenticated (Some s') w) /\
  (sessionRequired (DISABLE_AUTH env) = true ->
   req_session req = Site.authenticated (Some s) w' ->
   Site.logout (DISABLE_AUTH env) (Some s) w' = (Ok Site.Denied, w') /\
   Metadata.api env req mw = (Ok Unauthorized, mw) /\
   Cache.api env req cw = (Ok Unauthorized, cw)) /\
  (sessionRequired (DISABLE_AUTH env) = false ->
   exists what,
     Site.logout (DISABLE_AUTH env) (Some s) w' = (Throw (TypeError what), w') /\
     Site.logout (DISABLE_AUTH env) None w = (Throw (TypeError what), w)).
Proof.
  intros w'.
  assert (Site.authenticated (Some s) w' = None) as Hgone.
  { unfold Site.authenticated, w'. simpl. rewrite decide_False; [done|set_solver]. }
  split; [|split; [exact Hgone|split; [|split]]].
  - unfold Site.logout, Site.authenticated. rewrite decide_True by done.
    by destruct (sessionRequired _).
  - intros s' Hne. unfold Site.authenticated, w'. simpl.
    destruct (decide (Site.handle s' ∈ Site.live w)) as [Hin|Hin].
    + rewrite decide_True; [done|]. set_solver.
    + rewrite decide_False; [done|]. set_solver.
  - intros Hreq Hsession. rewrite Hgone in Hsession. split; [|split].
    + unfold Site.logout. by rewrite Hgone, Hreq.
    + unfold Metadata.api, guarded, verifySession. rewrite Hreq, Hsession.
      by destruct (req_method req).
    + unfold Cache.api, guarded, verifySession. rewrite Hreq, Hsession.
      by destruct (req_method req).
  - intros Hreq. eexists. split.
    + unfold Site.logout. rewrite Hgone, Hreq. reflexivity.
    + unfold Site.logout. simpl. by rewrite Hreq.
Qed.

Lemma X20_logout_revokes_the_session_witness :
  Site.handle Samples.alice ∈ Site.live Samples.both_live /\
  fst (Site.logout (DISABLE_AUTH Examples.env) (Some Samples.alice) Samples.both_live)
    = Ok (Site.Send "Success! User session revoked") /\
  Site.authenticated (Some Samples.bob)
    {| Site.live := Site.live Samples.both_live ∖ {[ Site.handle Samples.alice ]} |}
    = Site.authenticated (Some Samples.bob) Samples.both_live.
Proof.
  assert (Site.handle Samples.alice ∈ Site.live Samples.both_live) as Hlive.
  { unfold Samples.both_live, Samples.alice. simpl. set_solver. }
  split; [exact Hlive|].
  destruct (X20_logout_revokes_the_session Examples.env Samples.alice
              Samples.both_live
              (Examples.request_of GET None None None) Examples.fresh
              Examples.empty_cache Hlive) as (H1 & _ & H2 & _).
  split.
  - by rewrite H1.
  - apply H2. discriminate.
Defined.
